(** * json_to_csv: flattening the 2026 budget report into table rows

    A shallow embedding of [src/data/json_to_csv.py] and the properties its
    specification states about it.

    - [PyValue]: the values [json.load] builds, and the dynamic operations
      the script performs on them ([.get], [.items()], iteration), each with
      the exception Python raises on a receiver of the wrong type.
    - [Flattener]: [flatten_json_to_rows], loop by loop as in the source.
    - [Document]: the document as the specification describes it, its
      traversal and the row of each node.
    - [Heap]: [flatten_json_to_rows] once more, over a store of Python
      objects: dicts and lists live at addresses, and the rows are
      appended in place to the list that the call allocates.
    - [Shell]: [main], over a file system and the library calls it makes
      ([json.load], [open], [csv.DictWriter], [print], the formatting of a
      value), each of which may raise.

    The properties come in three parts: those the specification states, on
    well-formed documents; those the code shows beyond it: which documents
    the flattener accepts, what it returns on them, and how a run of the
    shell ends; and the agreement of two runs on one document, from the
    refinement of the flattener over values by the one over the store. *)

From Stdlib Require Import ZArith Ascii String Floats.PrimFloat.
From stdpp Require Import gmap strings list pretty.

Set Warnings "-register-all".

(** ** Python values and the exceptions of dynamic access *)

Module PyValue.

(** What [json.load] returns.  A [dict] keeps its items in insertion order,
    so it is a list of pairs; a real [dict] has pairwise distinct keys. *)
Inductive json : Type :=
| JNull
| JBool (b : bool)
| JInt (n : Z)
| JFloat (x : float)
| JStr (s : string)
| JList (items : list json)
| JDict (items : list (string * json)).

Inductive exn : Type :=
| AttributeError
| TypeError
| OSError
| UnicodeEncodeError
| SystemError.

Inductive result (A : Type) : Type :=
| Ok (a : A)
| Raise (e : exn).
Arguments Ok {A} a.
Arguments Raise {A} e.

Definition bind {A B} (r : result A) (k : A -> result B) : result B :=
  match r with
  | Ok a => k a
  | Raise e => Raise e
  end.

Notation "'let*' x ':=' e 'in' k" := (bind e (fun x => k))
  (at level 10, x name, e at level 200, k at level 200, only parsing).

(** A [for] loop whose body updates the loop-carried state [s] and may
    raise: the first exception leaves the loop. *)
Fixpoint for_each {A S} (xs : list A) (body : A -> S -> result S) (s : S)
  : result S :=
  match xs with
  | [] => Ok s
  | x :: xs' => let* s' := body x s in for_each xs' body s'
  end.

Fixpoint lookup_key (k : string) (kvs : list (string * json)) : option json :=
  match kvs with
  | [] => None
  | (k', v) :: rest => if String.eqb k k' then Some v else lookup_key k rest
  end.

(** [d.get(k, dflt)]: only a [dict] has the method. *)
Definition get (d : json) (k : string) (dflt : json) : result json :=
  match d with
  | JDict kvs => Ok (default dflt (lookup_key k kvs))
  | _ => Raise AttributeError
  end.

(** [d.items()]. *)
Definition items (d : json) : result (list (string * json)) :=
  match d with
  | JDict kvs => Ok kvs
  | _ => Raise AttributeError
  end.

(** A [str] is kept as its UTF-8 bytes; iterating it yields one string per
    character, that is per lead byte with its continuation bytes. *)
Definition is_continuation (c : Ascii.ascii) : bool :=
  let n := nat_of_ascii c in (128 <=? n)%nat && (n <? 192)%nat.

Fixpoint split_chars (s : string) : string * list string :=
  match s with
  | EmptyString => (EmptyString, [])
  | String c rest =>
      let '(cont, chars) := split_chars rest in
      if is_continuation c then (String c cont, chars)
      else (EmptyString, String c cont :: chars)
  end.

Definition chars (s : string) : list string := snd (split_chars s).

(** [for x in v]: a list yields its elements, a dict its keys, a string
    its characters; the other values are not iterable. *)
Definition iter (v : json) : result (list json) :=
  match v with
  | JList xs => Ok xs
  | JDict kvs => Ok (map (fun kv => JStr (fst kv)) kvs)
  | JStr s => Ok (map JStr (chars s))
  | _ => Raise TypeError
  end.

End PyValue.

Export PyValue.

(** ** The flattener *)

Module Flattener.

(** A row is a dict with the same twelve keys at every level. *)
Record Row : Type := mkRow {
  Level : string;
  Department_Code : json;
  Department_Name : json;
  Agency_Code : json;
  Agency_Name : json;
  Sub_Agency_Code : json;
  Sub_Agency_Name : json;
  House : json;
  Increase : json;
  Decrease : json;
  Net : json;
  Senate : json
}.

Definition flatten_json_to_rows (data : json) : result (list Row) :=
  let rows : list Row := [] in
  let* report := get data "COMMITTEE_REPORT_HBN_4058" (JDict []) in
  let* summary := get report "summary" (JDict []) in
  let* entries := items summary in
  let* rows := for_each entries (fun '(key, values) rows =>
    let* house := get values "house" (JInt 0) in
    let* increase := get values "increase" (JInt 0) in
    let* decrease := get values "decrease" (JInt 0) in
    let* net := get values "net" (JInt 0) in
    let* senate := get values "senate" (JInt 0) in
    Ok (rows ++ [mkRow "Summary" (JStr "") (JStr key) (JStr "") (JStr "")
                   (JStr "") (JStr "") house increase decrease net senate]))
    rows in
  let* departments := get report "DEPARTMENTS" (JList []) in
  let* departments := iter departments in
  let* rows := for_each departments (fun dept rows =>
    let* dept_code := get dept "code" (JStr "") in
    let* dept_name := get dept "name" (JStr "") in
    let* house := get dept "house" (JInt 0) in
    let* increase := get dept "increase" (JInt 0) in
    let* decrease := get dept "decrease" (JInt 0) in
    let* net := get dept "net" (JInt 0) in
    let* senate := get dept "senate" (JInt 0) in
    let rows := rows ++ [mkRow "Department" dept_code dept_name (JStr "")
                           (JStr "") (JStr "") (JStr "")
                           house increase decrease net senate] in
    let* agencies := get dept "agencies" (JList []) in
    let* agencies := iter agencies in
    for_each agencies (fun agency rows =>
      let* agency_code := get agency "code" (JStr "") in
      let* agency_name := get agency "name" (JStr "") in
      let* house := get agency "house" (JInt 0) in
      let* increase := get agency "increase" (JInt 0) in
      let* decrease := get agency "decrease" (JInt 0) in
      let* net := get agency "net" (JInt 0) in
      let* senate := get agency "senate" (JInt 0) in
      let rows := rows ++ [mkRow "Agency" dept_code dept_name
                             agency_code agency_name (JStr "") (JStr "")
                             house increase decrease net senate] in
      let* sub_agencies := get agency "sub_agencies" (JList []) in
      let* sub_agencies := iter sub_agencies in
      for_each sub_agencies (fun sub_agency rows =>
        let* sub_agency_code := get sub_agency "code" (JStr "") in
        let* sub_agency_name := get sub_agency "name" (JStr "") in
        let* house := get sub_agency "house" (JInt 0) in
        let* increase := get sub_agency "increase" (JInt 0) in
        let* decrease := get sub_agency "decrease" (JInt 0) in
        let* net := get sub_agency "net" (JInt 0) in
        let* senate := get sub_agency "senate" (JInt 0) in
        Ok (rows ++ [mkRow "Sub-Agency" dept_code dept_name
                       agency_code agency_name
                       sub_agency_code sub_agency_name
                       house increase decrease net senate]))
        rows)
      rows)
    rows in
  let* spf := get report "SPECIAL_PURPOSE_FUNDS" (JList []) in
  let* spf := iter spf in
  let* rows := for_each spf (fun fund rows =>
    let* fund_code := get fund "code" (JStr "") in
    let* fund_name := get fund "name" (JStr "") in
    let* house := get fund "house" (JInt 0) in
    let* increase := get fund "increase" (JInt 0) in
    let* decrease := get fund "decrease" (JInt 0) in
    let* net := get fund "net" (JInt 0) in
    let* senate := get fund "senate" (JInt 0) in
    let rows := rows ++ [mkRow "Special Purpose Fund" fund_code fund_name
                           (JStr "") (JStr "") (JStr "") (JStr "")
                           house increase decrease net senate] in
    let* agencies := get fund "agencies" (JList []) in
    let* agencies := iter agencies in
    for_each agencies (fun agency rows =>
      let* agency_code := get agency "code" (JStr "") in
      let* agency_name := get agency "name" (JStr "") in
      let* house := get agency "house" (JInt 0) in
      let* increase := get agency "increase" (JInt 0) in
      let* decrease := get agency "decrease" (JInt 0) in
      let* net := get agency "net" (JInt 0) in
      let* senate := get agency "senate" (JInt 0) in
      Ok (rows ++ [mkRow "SPF Agency" fund_code fund_name
                     agency_code agency_name (JStr "") (JStr "")
                     house increase decrease net senate]))
      rows)
    rows in
  Ok rows.

End Flattener.

Export Flattener.

(** ** The flattener over the objects of the interpreter

    A parsed document is not a value but an object that the caller keeps:
    what a second call sees depends on what the first one did to it.  Here
    the flattener runs over a store of objects, reading the document
    through references, building its defaults, cells and rows as new
    objects and appending to its list of rows in place. *)

Module Heap.

Abbreviation addr := nat.

(** An object; a list or a dict holds references.  The keys of a dict are
    kept as text, strings being immutable. *)
Inductive obj : Type :=
| ONone
| OBool (b : bool)
| OInt (n : Z)
| OFloat (x : float)
| OStr (s : string)
| OList (items : list addr)
| ODict (items : list (string * addr)).

(** The store: the object at address [a] is the [a]-th one created. *)
Abbreviation heap := (list obj).

(** A computation reads and changes the store, and returns or raises. *)
Definition M (A : Type) : Type := heap -> result A * heap.

Definition ret {A} (a : A) : M A := fun h => (Ok a, h).

Definition raise {A} (e : exn) : M A := fun h => (Raise e, h).

Definition hbind {A B} (m : M A) (k : A -> M B) : M B :=
  fun h =>
    match m h with
    | (Ok a, h') => k a h'
    | (Raise e, h') => (Raise e, h')
    end.

Notation "'let!' x ':=' e 'in' k" := (hbind e (fun x => k))
  (at level 10, x name, e at level 200, k at level 200, only parsing).

(** A literal or a display creates an object. *)
Definition new (o : obj) : M addr := fun h => (Ok (length h), h ++ [o]).

(** A reference outside the store is an error of the interpreter, not of
    the program. *)
Definition deref (a : addr) : M obj :=
  fun h =>
    match h !! a with
    | Some o => (Ok o, h)
    | None => (Raise SystemError, h)
    end.

Fixpoint assoc {V} (k : string) (kvs : list (string * V)) : option V :=
  match kvs with
  | [] => None
  | (k', v) :: rest => if String.eqb k k' then Some v else assoc k rest
  end.

(** [d.get(k, dflt)], the default being an object already. *)
Definition hget (d : addr) (k : string) (dflt : addr) : M addr :=
  let! o := deref d in
  match o with
  | ODict kvs => ret (default dflt (assoc k kvs))
  | _ => raise AttributeError
  end.

(** [d.items()]. *)
Definition hitems (d : addr) : M (list (string * addr)) :=
  let! o := deref d in
  match o with
  | ODict kvs => ret kvs
  | _ => raise AttributeError
  end.

Fixpoint new_strings (ss : list string) : M (list addr) :=
  match ss with
  | [] => ret []
  | s :: rest =>
      let! a := new (OStr s) in
      let! others := new_strings rest in
      ret (a :: others)
  end.

(** [for x in v]: the elements of a list, the keys of a dict or the
    characters of a string, the last two as strings. *)
Definition hiter (v : addr) : M (list addr) :=
  let! o := deref v in
  match o with
  | OList xs => ret xs
  | ODict kvs => new_strings (map fst kvs)
  | OStr s => new_strings (chars s)
  | _ => raise TypeError
  end.

(** [l.append(x)] changes the list [l] in place. *)
Definition append (l x : addr) : M unit :=
  fun h =>
    match h !! l with
    | Some (OList xs) => (Ok tt, <[l := OList (xs ++ [x])]> h)
    | Some _ => (Raise AttributeError, h)
    | None => (Raise SystemError, h)
    end.

Fixpoint hfor {A} (xs : list A) (body : A -> M unit) : M unit :=
  match xs with
  | [] => ret tt
  | x :: xs' => let! _ := body x in hfor xs' body
  end.

Definition flatten_json_to_rows (data : addr) : M addr :=
  let! rows := new (OList []) in
  let! d := new (ODict []) in
  let! report := hget data "COMMITTEE_REPORT_HBN_4058" d in
  let! d := new (ODict []) in
  let! summary := hget report "summary" d in
  let! entries := hitems summary in
  let! _ := hfor entries (fun '(key, values) =>
    let! level := new (OStr "Summary") in
    let! department_code := new (OStr "") in
    let! department_name := new (OStr key) in
    let! agency_code := new (OStr "") in
    let! agency_name := new (OStr "") in
    let! sub_agency_code := new (OStr "") in
    let! sub_agency_name := new (OStr "") in
    let! d := new (OInt 0) in
    let! house := hget values "house" d in
    let! d := new (OInt 0) in
    let! increase := hget values "increase" d in
    let! d := new (OInt 0) in
    let! decrease := hget values "decrease" d in
    let! d := new (OInt 0) in
    let! net := hget values "net" d in
    let! d := new (OInt 0) in
    let! senate := hget values "senate" d in
    let! row := new (ODict [("Level", level);
                            ("Department_Code", department_code);
                            ("Department_Name", department_name);
                            ("Agency_Code", agency_code);
                            ("Agency_Name", agency_name);
                            ("Sub_Agency_Code", sub_agency_code);
                            ("Sub_Agency_Name", sub_agency_name);
                            ("House", house); ("Increase", increase);
                            ("Decrease", decrease); ("Net", net);
                            ("Senate", senate)]) in
    append rows row) in
  let! d := new (OList []) in
  let! departments := hget report "DEPARTMENTS" d in
  let! departments := hiter departments in
  let! _ := hfor departments (fun dept =>
    let! d := new (OStr "") in
    let! dept_code := hget dept "code" d in
    let! d := new (OStr "") in
    let! dept_name := hget dept "name" d in
    let! level := new (OStr "Department") in
    let! agency_code := new (OStr "") in
    let! agency_name := new (OStr "") in
    let! sub_agency_code := new (OStr "") in
    let! sub_agency_name := new (OStr "") in
    let! d := new (OInt 0) in
    let! house := hget dept "house" d in
    let! d := new (OInt 0) in
    let! increase := hget dept "increase" d in
    let! d := new (OInt 0) in
    let! decrease := hget dept "decrease" d in
    let! d := new (OInt 0) in
    let! net := hget dept "net" d in
    let! d := new (OInt 0) in
    let! senate := hget dept "senate" d in
    let! row := new (ODict [("Level", level);
                            ("Department_Code", dept_code);
                            ("Department_Name", dept_name);
                            ("Agency_Code", agency_code);
                            ("Agency_Name", agency_name);
                            ("Sub_Agency_Code", sub_agency_code);
                            ("Sub_Agency_Name", sub_agency_name);
                            ("House", house); ("Increase", increase);
                            ("Decrease", decrease); ("Net", net);
                            ("Senate", senate)]) in
    let! _ := append rows row in
    let! d := new (OList []) in
    let! agencies := hget dept "agencies" d in
    let! agencies := hiter agencies in
    hfor agencies (fun agency =>
      let! d := new (OStr "") in
      let! agency_code := hget agency "code" d in
      let! d := new (OStr "") in
      let! agency_name := hget agency "name" d in
      let! level := new (OStr "Agency") in
      let! sub_agency_code := new (OStr "") in
      let! sub_agency_name := new (OStr "") in
      let! d := new (OInt 0) in
      let! house := hget agency "house" d in
      let! d := new (OInt 0) in
      let! increase := hget agency "increase" d in
      let! d := new (OInt 0) in
      let! decrease := hget agency "decrease" d in
      let! d := new (OInt 0) in
      let! net := hget agency "net" d in
      let! d := new (OInt 0) in
      let! senate := hget agency "senate" d in
      let! row := new (ODict [("Level", level);
                              ("Department_Code", dept_code);
                              ("Department_Name", dept_name);
                              ("Agency_Code", agency_code);
                              ("Agency_Name", agency_name);
                              ("Sub_Agency_Code", sub_agency_code);
                              ("Sub_Agency_Name", sub_agency_name);
                              ("House", house); ("Increase", increase);
                              ("Decrease", decrease); ("Net", net);
                              ("Senate", senate)]) in
      let! _ := append rows row in
      let! d := new (OList []) in
      let! sub_agencies := hget agency "sub_agencies" d in
      let! sub_agencies := hiter sub_agencies in
      hfor sub_agencies (fun sub_agency =>
        let! d := new (OStr "") in
        let! sub_agency_code := hget sub_agency "code" d in
        let! d := new (OStr "") in
        let! sub_agency_name := hget sub_agency "name" d in
        let! level := new (OStr "Sub-Agency") in
        let! d := new (OInt 0) in
        let! house := hget sub_agency "house" d in
        let! d := new (OInt 0) in
        let! increase := hget sub_agency "increase" d in
        let! d := new (OInt 0) in
        let! decrease := hget sub_agency "decrease" d in
        let! d := new (OInt 0) in
        let! net := hget sub_agency "net" d in
        let! d := new (OInt 0) in
        let! senate := hget sub_agency "senate" d in
        let! row := new (ODict [("Level", level);
                                ("Department_Code", dept_code);
                                ("Department_Name", dept_name);
                                ("Agency_Code", agency_code);
                                ("Agency_Name", agency_name);
                                ("Sub_Agency_Code", sub_agency_code);
                                ("Sub_Agency_Name", sub_agency_name);
                                ("House", house); ("Increase", increase);
                                ("Decrease", decrease); ("Net", net);
                                ("Senate", senate)]) in
        append rows row))) in
  let! d := new (OList []) in
  let! spf := hget report "SPECIAL_PURPOSE_FUNDS" d in
  let! spf := hiter spf in
  let! _ := hfor spf (fun fund =>
    let! d := new (OStr "") in
    let! fund_code := hget fund "code" d in
    let! d := new (OStr "") in
    let! fund_name := hget fund "name" d in
    let! level := new (OStr "Special Purpose Fund") in
    let! agency_code := new (OStr "") in
    let! agency_name := new (OStr "") in
    let! sub_agency_code := new (OStr "") in
    let! sub_agency_name := new (OStr "") in
    let! d := new (OInt 0) in
    let! house := hget fund "house" d in
    let! d := new (OInt 0) in
    let! increase := hget fund "increase" d in
    let! d := new (OInt 0) in
    let! decrease := hget fund "decrease" d in
    let! d := new (OInt 0) in
    let! net := hget fund "net" d in
    let! d := new (OInt 0) in
    let! senate := hget fund "senate" d in
    let! row := new (ODict [("Level", level);
                            ("Department_Code", fund_code);
                            ("Department_Name", fund_name);
                            ("Agency_Code", agency_code);
                            ("Agency_Name", agency_name);
                            ("Sub_Agency_Code", sub_agency_code);
                            ("Sub_Agency_Name", sub_agency_name);
                            ("House", house); ("Increase", increase);
                            ("Decrease", decrease); ("Net", net);
                            ("Senate", senate)]) in
    let! _ := append rows row in
    let! d := new (OList []) in
    let! agencies := hget fund "agencies" d in
    let! agencies := hiter agencies in
    hfor agencies (fun agency =>
      let! d := new (OStr "") in
      let! agency_code := hget agency "code" d in
      let! d := new (OStr "") in
      let! agency_name := hget agency "name" d in
      let! level := new (OStr "SPF Agency") in
      let! sub_agency_code := new (OStr "") in
      let! sub_agency_name := new (OStr "") in
      let! d := new (OInt 0) in
      let! house := hget agency "house" d in
      let! d := new (OInt 0) in
      let! increase := hget agency "increase" d in
      let! d := new (OInt 0) in
      let! decrease := hget agency "decrease" d in
      let! d := new (OInt 0) in
      let! net := hget agency "net" d in
      let! d := new (OInt 0) in
      let! senate := hget agency "senate" d in
      let! row := new (ODict [("Level", level);
                              ("Department_Code", fund_code);
                              ("Department_Name", fund_name);
                              ("Agency_Code", agency_code);
                              ("Agency_Name", agency_name);
                              ("Sub_Agency_Code", sub_agency_code);
                              ("Sub_Agency_Name", sub_agency_name);
                              ("House", house); ("Increase", increase);
                              ("Decrease", decrease); ("Net", net);
                              ("Senate", senate)]) in
      append rows row)) in
  ret rows.

(** What the objects stand for: [denotes h a v] when the object at [a]
    and those it refers to spell the value [v]. *)
Inductive denotes (h : heap) : addr -> json -> Prop :=
| denotes_null a : h !! a = Some ONone -> denotes h a JNull
| denotes_bool a b : h !! a = Some (OBool b) -> denotes h a (JBool b)
| denotes_int a n : h !! a = Some (OInt n) -> denotes h a (JInt n)
| denotes_float a x : h !! a = Some (OFloat x) -> denotes h a (JFloat x)
| denotes_str a s : h !! a = Some (OStr s) -> denotes h a (JStr s)
| denotes_list a xs vs :
    h !! a = Some (OList xs) ->
    Forall2 (denotes h) xs vs ->
    denotes h a (JList vs)
| denotes_dict a kvs items :
    h !! a = Some (ODict kvs) ->
    Forall2 (fun ka kv => fst ka = fst kv /\ denotes h (snd ka) (snd kv))
      kvs items ->
    denotes h a (JDict items).

(** A row object: a dict of the twelve keys in their order, whose cells
    spell the columns of [row]. *)
Definition denotes_row (h : heap) (a : addr) (row : Row) : Prop :=
  exists level c1 c2 c3 c4 c5 c6 n1 n2 n3 n4 n5,
    h !! a = Some (ODict [("Level", level);
                          ("Department_Code", c1); ("Department_Name", c2);
                          ("Agency_Code", c3); ("Agency_Name", c4);
                          ("Sub_Agency_Code", c5); ("Sub_Agency_Name", c6);
                          ("House", n1); ("Increase", n2); ("Decrease", n3);
                          ("Net", n4); ("Senate", n5)])
    /\ denotes h level (JStr (Level row))
    /\ denotes h c1 (Department_Code row)
    /\ denotes h c2 (Department_Name row)
    /\ denotes h c3 (Agency_Code row)
    /\ denotes h c4 (Agency_Name row)
    /\ denotes h c5 (Sub_Agency_Code row)
    /\ denotes h c6 (Sub_Agency_Name row)
    /\ denotes h n1 (House row)
    /\ denotes h n2 (Increase row)
    /\ denotes h n3 (Decrease row)
    /\ denotes h n4 (Net row)
    /\ denotes h n5 (Senate row).

Definition denotes_rows (h : heap) (a : addr) (rows : list Row) : Prop :=
  exists xs, h !! a = Some (OList xs) /\ Forall2 (denotes_row h) xs rows.

(** [json.load] as it builds the objects of a value: the parts first,
    then the list or dict that refers to them. *)
Fixpoint store (v : json) (h : heap) : addr * heap :=
  match v with
  | JNull => (length h, h ++ [ONone])
  | JBool b => (length h, h ++ [OBool b])
  | JInt n => (length h, h ++ [OInt n])
  | JFloat x => (length h, h ++ [OFloat x])
  | JStr s => (length h, h ++ [OStr s])
  | JList vs =>
      let '(xs, h') :=
        (fix store_all (vs : list json) (h : heap) : list addr * heap :=
           match vs with
           | [] => ([], h)
           | v :: rest =>
               let '(x, h1) := store v h in
               let '(xs, h2) := store_all rest h1 in
               (x :: xs, h2)
           end) vs h in
      (length h', h' ++ [OList xs])
  | JDict items =>
      let '(kvs, h') :=
        (fix store_items (items : list (string * json)) (h : heap)
           : list (string * addr) * heap :=
           match items with
           | [] => ([], h)
           | (k, v) :: rest =>
               let '(x, h1) := store v h in
               let '(kvs, h2) := store_items rest h1 in
               ((k, x) :: kvs, h2)
           end) items h in
      (length h', h' ++ [ODict kvs])
  end.

(** The run of the flattener over a store that began as [h0], against
    its run over the value of the document.  The list of rows is the first
    object the flattener creates, at address [length h0]; it alone is
    changed in place. *)
Section Simulation.

Variable h0 : heap.

(** The store has grown from [h0] and kept its objects. *)
Definition grown (h : heap) : Prop :=
  length h0 < length h /\ forall a, a < length h0 -> h !! a = h0 !! a.

(** From [h] to [h'] no object but the list of rows has changed. *)
Definition frame (h h' : heap) : Prop :=
  length h <= length h'
  /\ forall a, a <> length h0 -> a < length h -> h' !! a = h !! a.

(** From [h] to [h'] no object at all has changed. *)
Definition ext (h h' : heap) : Prop :=
  forall a o, h !! a = Some o -> h' !! a = Some o.

(** The reference [a] stands for [v]: it points into the document, or at
    a literal or an empty display of the flattener. *)
Inductive val (h : heap) (a : addr) : json -> Prop :=
| val_data v : denotes h0 a v -> val h a v
| val_str s : a <> length h0 -> h !! a = Some (OStr s) -> val h a (JStr s)
| val_int n : a <> length h0 -> h !! a = Some (OInt n) -> val h a (JInt n)
| val_dict : a <> length h0 -> h !! a = Some (ODict []) -> val h a (JDict [])
| val_list : a <> length h0 -> h !! a = Some (OList []) -> val h a (JList []).

Definition row_in (h : heap) (a : addr) (row : Row) : Prop :=
  a <> length h0
  /\ exists level c1 c2 c3 c4 c5 c6 n1 n2 n3 n4 n5,
       h !! a = Some (ODict [("Level", level);
                             ("Department_Code", c1); ("Department_Name", c2);
                             ("Agency_Code", c3); ("Agency_Name", c4);
                             ("Sub_Agency_Code", c5); ("Sub_Agency_Name", c6);
                             ("House", n1); ("Increase", n2); ("Decrease", n3);
                             ("Net", n4); ("Senate", n5)])
       /\ val h level (JStr (Level row))
       /\ val h c1 (Department_Code row)
       /\ val h c2 (Department_Name row)
       /\ val h c3 (Agency_Code row)
       /\ val h c4 (Agency_Name row)
       /\ val h c5 (Sub_Agency_Code row)
       /\ val h c6 (Sub_Agency_Name row)
       /\ val h n1 (House row)
       /\ val h n2 (Increase row)
       /\ val h n3 (Decrease row)
       /\ val h n4 (Net row)
       /\ val h n5 (Senate row).

(** The object [o] spells the value [v], its parts standing for the
    parts of [v]. *)
Definition spells (h : heap) (o : obj) (v : json) : Prop :=
  match o, v with
  | ONone, JNull => True
  | OBool b, JBool b' => b = b'
  | OInt n, JInt n' => n = n'
  | OFloat x, JFloat x' => x = x'
  | OStr s, JStr s' => s = s'
  | OList xs, JList vs => Forall2 (val h) xs vs
  | ODict kvs, JDict items =>
      Forall2 (fun ka kv => fst ka = fst kv /\ val h (snd ka) (snd kv))
        kvs items
  | _, _ => False
  end.

(** The literals and empty displays of the flattener. *)
Inductive literal : obj -> json -> Prop :=
| literal_str s : literal (OStr s) (JStr s)
| literal_int n : literal (OInt n) (JInt n)
| literal_dict : literal (ODict []) (JDict [])
| literal_list : literal (OList []) (JList []).

(** The list of rows holds the rows that the pure loops have gathered. *)
Definition rows_in (h : heap) (rows : list Row) : Prop :=
  exists xs,
    h !! length h0 = Some (OList xs) /\ Forall2 (row_in h) xs rows.

(** The computation [m] in the store [h] ends as the pure result [p]
    does, with a result related to it by [Q]. *)
Definition refines {A B} (h : heap) (m : M A) (p : result B)
    (Q : heap -> A -> B -> Prop) : Prop :=
  match p with
  | Ok b => exists a h', m h = (Ok a, h') /\ frame h h' /\ Q h' a b
  | Raise e => exists h', m h = (Raise e, h') /\ frame h h'
  end.

End Simulation.

End Heap.

(** ** The document as the specification describes it *)

Module Document.

Definition is_dict (v : json) : bool :=
  match v with JDict _ => true | _ => false end.

Definition is_list (v : json) : bool :=
  match v with JList _ => true | _ => false end.

Definition has_key (node : json) (k : string) : bool :=
  match node with
  | JDict kvs => bool_decide (is_Some (lookup_key k kvs))
  | _ => false
  end.

(** Total readers: a field of a node with its default, the elements of a
    sequence, the items of a mapping. *)
Definition field (node : json) (k : string) (dflt : json) : json :=
  match node with
  | JDict kvs => default dflt (lookup_key k kvs)
  | _ => dflt
  end.

Definition sequence (v : json) : list json :=
  match v with JList xs => xs | _ => [] end.

Definition mapping (v : json) : list (string * json) :=
  match v with JDict kvs => kvs | _ => [] end.

Definition report_of (data : json) : json :=
  field data "COMMITTEE_REPORT_HBN_4058" (JDict []).

Definition summary_of (data : json) : list (string * json) :=
  mapping (field (report_of data) "summary" (JDict [])).

Definition departments_of (data : json) : list json :=
  sequence (field (report_of data) "DEPARTMENTS" (JList [])).

Definition funds_of (data : json) : list json :=
  sequence (field (report_of data) "SPECIAL_PURPOSE_FUNDS" (JList [])).

Definition agencies_of (node : json) : list json :=
  sequence (field node "agencies" (JList [])).

Definition sub_agencies_of (agency : json) : list json :=
  sequence (field agency "sub_agencies" (JList [])).

(** Well-formed documents: every node is a mapping, every list of children
    that is present is a sequence.  Fields of a node may be missing, and
    their values are not constrained. *)
Definition wf_children (node : json) (k : string) (wf_child : json -> bool)
  : bool :=
  is_list (field node k (JList []))
  && forallb wf_child (sequence (field node k (JList []))).

Definition wf_agency (agency : json) : bool :=
  is_dict agency && wf_children agency "sub_agencies" is_dict.

Definition wf_department (dept : json) : bool :=
  is_dict dept && wf_children dept "agencies" wf_agency.

Definition wf_fund (fund : json) : bool :=
  is_dict fund && wf_children fund "agencies" is_dict.

Definition wf_document (data : json) : bool :=
  is_dict data
  && is_dict (report_of data)
  && is_dict (field (report_of data) "summary" (JDict []))
  && forallb (fun kv => is_dict (snd kv)) (summary_of data)
  && wf_children (report_of data) "DEPARTMENTS" wf_department
  && wf_children (report_of data) "SPECIAL_PURPOSE_FUNDS" wf_fund.

(** One stop of the traversal: the node visited, with the nodes that
    enclose it. *)
Inductive visit : Type :=
| VSummary (key : string) (values : json)
| VDepartment (dept : json)
| VAgency (dept agency : json)
| VSubAgency (dept agency sub_agency : json)
| VFund (fund : json)
| VSpfAgency (fund agency : json).

Definition node_of (v : visit) : json :=
  match v with
  | VSummary _ values => values
  | VDepartment dept => dept
  | VAgency _ agency => agency
  | VSubAgency _ _ sub_agency => sub_agency
  | VFund fund => fund
  | VSpfAgency _ agency => agency
  end.

Definition level_of (v : visit) : string :=
  match v with
  | VSummary _ _ => "Summary"
  | VDepartment _ => "Department"
  | VAgency _ _ => "Agency"
  | VSubAgency _ _ _ => "Sub-Agency"
  | VFund _ => "Special Purpose Fund"
  | VSpfAgency _ _ => "SPF Agency"
  end.

(** Depth first, a parent before its children, siblings in document
    order; the four sub-trees in the fixed order of the specification. *)
Definition visit_agency (dept agency : json) : list visit :=
  VAgency dept agency :: map (VSubAgency dept agency) (sub_agencies_of agency).

Definition visit_department (dept : json) : list visit :=
  VDepartment dept :: flat_map (visit_agency dept) (agencies_of dept).

Definition visit_fund (fund : json) : list visit :=
  VFund fund :: map (VSpfAgency fund) (agencies_of fund).

Definition traversal (data : json) : list visit :=
  map (fun kv => VSummary (fst kv) (snd kv)) (summary_of data)
  ++ flat_map visit_department (departments_of data)
  ++ flat_map visit_fund (funds_of data).

(** The row of a visit, column by column as section 4.1 words it. *)
Definition amount (node : json) (k : string) : json := field node k (JInt 0).
Definition label (node : json) (k : string) : json := field node k (JStr "").

Definition spec_row (v : visit) : Row :=
  let blank := JStr "" in
  let n := node_of v in
  let numbers (mk : json -> json -> json -> json -> json -> Row) :=
    mk (amount n "house") (amount n "increase") (amount n "decrease")
       (amount n "net") (amount n "senate") in
  match v with
  | VSummary key _ =>
      numbers (mkRow "Summary" blank (JStr key) blank blank blank blank)
  | VDepartment dept =>
      numbers (mkRow "Department" (label dept "code") (label dept "name")
                 blank blank blank blank)
  | VAgency dept agency =>
      numbers (mkRow "Agency" (label dept "code") (label dept "name")
                 (label agency "code") (label agency "name") blank blank)
  | VSubAgency dept agency sub_agency =>
      numbers (mkRow "Sub-Agency" (label dept "code") (label dept "name")
                 (label agency "code") (label agency "name")
                 (label sub_agency "code") (label sub_agency "name"))
  | VFund fund =>
      numbers (mkRow "Special Purpose Fund"
                 (label fund "code") (label fund "name")
                 blank blank blank blank)
  | VSpfAgency fund agency =>
      numbers (mkRow "SPF Agency" (label fund "code") (label fund "name")
                 (label agency "code") (label agency "name") blank blank)
  end.

(** The five numeric fields, their keys and their columns. *)
Inductive numeric : Type := NHouse | NIncrease | NDecrease | NNet | NSenate.

Definition key_of (f : numeric) : string :=
  match f with
  | NHouse => "house"
  | NIncrease => "increase"
  | NDecrease => "decrease"
  | NNet => "net"
  | NSenate => "senate"
  end.

Definition column (f : numeric) (row : Row) : json :=
  match f with
  | NHouse => House row
  | NIncrease => Increase row
  | NDecrease => Decrease row
  | NNet => Net row
  | NSenate => Senate row
  end.

(** The code and name columns of a row that belong to the visited node
    itself; a summary entry has a key, not a code and a name. *)
Definition own_columns (v : visit) (row : Row) : option (json * json) :=
  match v with
  | VSummary _ _ => None
  | VDepartment _ | VFund _ => Some (Department_Code row, Department_Name row)
  | VAgency _ _ | VSpfAgency _ _ => Some (Agency_Code row, Agency_Name row)
  | VSubAgency _ _ _ => Some (Sub_Agency_Code row, Sub_Agency_Name row)
  end.

(** A visit names the nodes that really enclose its node in [data]. *)
Definition enclosed (data : json) (v : visit) : Prop :=
  match v with
  | VSummary key values => (key, values) ∈ summary_of data
  | VDepartment dept => dept ∈ departments_of data
  | VAgency dept agency =>
      dept ∈ departments_of data /\ agency ∈ agencies_of dept
  | VSubAgency dept agency sub_agency =>
      dept ∈ departments_of data /\ agency ∈ agencies_of dept
      /\ sub_agency ∈ sub_agencies_of agency
  | VFund fund => fund ∈ funds_of data
  | VSpfAgency fund agency =>
      fund ∈ funds_of data /\ agency ∈ agencies_of fund
  end.

(** The columns of a row that repeat the identity of the enclosing nodes. *)
Definition carries_parents (v : visit) (row : Row) : Prop :=
  match v with
  | VAgency dept _ =>
      Department_Code row = label dept "code"
      /\ Department_Name row = label dept "name"
  | VSubAgency dept agency _ =>
      Department_Code row = label dept "code"
      /\ Department_Name row = label dept "name"
      /\ Agency_Code row = label agency "code"
      /\ Agency_Name row = label agency "name"
  | VSpfAgency fund _ =>
      Department_Code row = label fund "code"
      /\ Department_Name row = label fund "name"
  | VSummary _ _ | VDepartment _ | VFund _ => True
  end.

(** The node count of the four traversed sub-trees. *)
Definition node_count (data : json) : nat :=
  length (summary_of data)
  + length (departments_of data)
  + sum_list_with (fun dept => length (agencies_of dept)) (departments_of data)
  + sum_list_with
      (fun dept =>
         sum_list_with (fun agency => length (sub_agencies_of agency))
           (agencies_of dept))
      (departments_of data)
  + length (funds_of data)
  + sum_list_with (fun fund => length (agencies_of fund)) (funds_of data).

(** The documents on which every access of the loops succeeds.  A loop
    runs over a list whose elements suit its body; over anything else it
    only runs when there is nothing to iterate (an empty mapping, an empty
    string), since a key or a character has no [get]. *)
Definition loops_over (ok : json -> bool) (v : json) : bool :=
  match v with
  | JList xs => forallb ok xs
  | JDict kvs => match kvs with [] => true | _ :: _ => false end
  | JStr s => match chars s with [] => true | _ :: _ => false end
  | _ => false
  end.

Definition accepts_agency (agency : json) : bool :=
  is_dict agency
  && loops_over is_dict (field agency "sub_agencies" (JList [])).

Definition accepts_department (dept : json) : bool :=
  is_dict dept
  && loops_over accepts_agency (field dept "agencies" (JList [])).

Definition accepts_fund (fund : json) : bool :=
  is_dict fund && loops_over is_dict (field fund "agencies" (JList [])).

Definition accepts_document (data : json) : bool :=
  is_dict data
  && is_dict (report_of data)
  && is_dict (field (report_of data) "summary" (JDict []))
  && forallb (fun kv => is_dict (snd kv)) (summary_of data)
  && loops_over accepts_department
       (field (report_of data) "DEPARTMENTS" (JList []))
  && loops_over accepts_fund
       (field (report_of data) "SPECIAL_PURPOSE_FUNDS" (JList [])).

(** The identity columns of a row that its level leaves unused. *)
Definition unused_columns (v : visit) (row : Row) : list json :=
  match v with
  | VSummary _ _ =>
      [Department_Code row; Agency_Code row; Agency_Name row;
       Sub_Agency_Code row; Sub_Agency_Name row]
  | VDepartment _ | VFund _ =>
      [Agency_Code row; Agency_Name row;
       Sub_Agency_Code row; Sub_Agency_Name row]
  | VAgency _ _ | VSpfAgency _ _ => [Sub_Agency_Code row; Sub_Agency_Name row]
  | VSubAgency _ _ _ => []
  end.

(** The rows of one level. *)
Definition rows_at (level : string) (rows : list Row) : list Row :=
  filter (fun row => Level row = level) rows.

End Document.

Export Document.

(** ** The command-line shell *)

Module Shell.

(** How a run ends: [main] returns or calls [sys.exit], or an exception
    reaches the top level and the interpreter prints a traceback. *)
Inductive status : Type :=
| Exit (code : Z)
| Uncaught (e : exn).

Definition status_code (s : status) : Z :=
  match s with
  | Exit code => code
  | Uncaught _ => 1
  end.

(** What a run leaves behind: the lines printed, the files, the status. *)
Record outcome : Type := mkOutcome {
  stdout : list string;
  files : gmap string string;
  exit : status
}.

Definition fieldnames : list string :=
  ["Level"; "Department_Code"; "Department_Name"; "Agency_Code";
   "Agency_Name"; "Sub_Agency_Code"; "Sub_Agency_Name";
   "House"; "Increase"; "Decrease"; "Net"; "Senate"].

Definition newline : string := String (ascii_of_nat 10) EmptyString.

Section Main.

(** The file system and the library calls of [main].
    - [resolve path]: the file that [path] names; every spelling of one
      file resolves alike, and the file system is keyed by resolved paths;
    - [json_loads text]: what [json.load] makes of a file holding [text],
      the value or the message of its [JSONDecodeError];
    - [open_fault path]: the exception with which [open(path, 'w')] fails,
      if it does (a missing directory, a directory, no permission);
    - [csv_text fieldnames rows]: the text that a [csv.DictWriter] over
      [fieldnames] writes with [writeheader()] and [writerows(rows)] when
      nothing fails;
    - [write_fault path fieldnames rows]: when writing the header and the
      rows to [path] raises (a string that cannot be encoded, a full
      disk), the text that reached the file before and the exception;
    - [py_str v]: [v] as an f-string formats it;
    - [print_fault line]: the exception with which [print] fails on
      [line], if it does (text that stdout cannot encode). *)
Variable resolve : string -> string.
Variable json_loads : string -> json + string.
Variable open_fault : string -> option exn.
Variable csv_text : list string -> list Row -> string.
Variable write_fault : string -> list string -> list Row -> option (string * exn).
Variable py_str : json -> string.
Variable print_fault : string -> option exn.

(** The file system maps each file to its text; a file outside its domain
    does not exist, and the files in it can be read as UTF-8.  Opening the
    output truncates it, so that a write that fails leaves what was
    written until then.  The lines printed before the output is opened
    (fixed text, the input path, the decoder's message, a count) are taken
    to reach stdout.  [sys.argv] is [argv], the script's name first. *)
Definition main (argv : list string) (fs : gmap string string) : outcome :=
  let input_file := "2026.json" in
  let output_file := "2026.csv" in
  let input_file :=
    if bool_decide (1 < length argv) then default input_file (argv !! 1)
    else input_file in
  let output_file :=
    if bool_decide (2 < length argv) then default output_file (argv !! 2)
    else output_file in
  let out := ["Reading from: " +:+ input_file] in
  match fs !! resolve input_file with
  | None =>
      mkOutcome (out ++ ["Error: File '" +:+ input_file +:+ "' not found"])
        fs (Exit 1)
  | Some text =>
      match json_loads text with
      | inr e =>
          mkOutcome
            (out ++ ["Error: Invalid JSON in '" +:+ input_file +:+ "': " +:+ e])
            fs (Exit 1)
      | inl data =>
          match flatten_json_to_rows data with
          | Raise e => mkOutcome out fs (Uncaught e)
          | Ok rows =>
              let out :=
                out ++ ["Converted " +:+ pretty (length rows) +:+ " rows"] in
              match rows with
              | _ :: _ =>
                  match open_fault output_file with
                  | Some e => mkOutcome out fs (Uncaught e)
                  | None =>
                      match write_fault output_file fieldnames rows with
                      | Some (partial, e) =>
                          mkOutcome out (<[resolve output_file := partial]> fs)
                            (Uncaught e)
                      | None =>
                          let fs :=
                            <[resolve output_file := csv_text fieldnames rows]> fs in
                          let wrote := "Successfully wrote to: " +:+ output_file in
                          match print_fault wrote with
                          | Some e => mkOutcome out fs (Uncaught e)
                          | None =>
                              let out := out ++ [wrote] in
                              match
                                (let* report :=
                                   get data "COMMITTEE_REPORT_HBN_4058" (JDict []) in
                                 get report "unit" (JStr "Thousand Pesos"))
                              with
                              | Raise e => mkOutcome out fs (Uncaught e)
                              | Ok unit =>
                                  let note :=
                                    newline +:+ "Note: All amounts are in "
                                    +:+ py_str unit in
                                  match print_fault note with
                                  | Some e => mkOutcome out fs (Uncaught e)
                                  | None => mkOutcome (out ++ [note]) fs (Exit 0)
                                  end
                              end
                          end
                      end
                  end
              | [] => mkOutcome (out ++ ["Warning: No data to write"]) fs (Exit 0)
              end
          end
      end
  end.

(** The conversion of the file [input] into a table at [output], as
    sections 4.2 and 6 of the specification describe a run: the paths are
    given, the unit of the report is read from the document. *)
Definition convert (input output : string) (fs : gmap string string)
  : outcome :=
  let reading := "Reading from: " +:+ input in
  match fs !! resolve input with
  | None =>
      mkOutcome [reading; "Error: File '" +:+ input +:+ "' not found"]
        fs (Exit 1)
  | Some text =>
      match json_loads text with
      | inr e =>
          mkOutcome
            [reading; "Error: Invalid JSON in '" +:+ input +:+ "': " +:+ e]
            fs (Exit 1)
      | inl data =>
          match flatten_json_to_rows data with
          | Raise e => mkOutcome [reading] fs (Uncaught e)
          | Ok [] =>
              mkOutcome [reading; "Converted 0 rows"; "Warning: No data to write"]
                fs (Exit 0)
          | Ok rows =>
              let converted := "Converted " +:+ pretty (length rows) +:+ " rows" in
              let wrote := "Successfully wrote to: " +:+ output in
              let note :=
                newline +:+ "Note: All amounts are in "
                +:+ py_str (field (report_of data) "unit" (JStr "Thousand Pesos")) in
              let written := <[resolve output := csv_text fieldnames rows]> fs in
              match open_fault output with
              | Some e => mkOutcome [reading; converted] fs (Uncaught e)
              | None =>
                  match write_fault output fieldnames rows with
                  | Some (partial, e) =>
                      mkOutcome [reading; converted]
                        (<[resolve output := partial]> fs) (Uncaught e)
                  | None =>
                      match print_fault wrote with
                      | Some e => mkOutcome [reading; converted] written (Uncaught e)
                      | None =>
                          match print_fault note with
                          | Some e =>
                              mkOutcome [reading; converted; wrote] written
                                (Uncaught e)
                          | None =>
                              mkOutcome [reading; converted; wrote; note] written
                                (Exit 0)
                          end
                      end
                  end
              end
          end
      end
  end.

End Main.

(** The paths a command line selects (section 6 of the specification). *)
Definition input_path (argv : list string) : string :=
  default "2026.json" (argv !! 1).

Definition output_path (argv : list string) : string :=
  default "2026.csv" (argv !! 2).


End Shell.

Export Shell.

(** ** Sample documents and files *)

Module Sample.

Definition scenario : json :=
  JDict [("COMMITTEE_REPORT_HBN_4058", JDict [
    ("summary", JDict [("Total", JDict [("house", JInt 100); ("senate", JInt 120);
                                        ("increase", JInt 20); ("decrease", JInt 0);
                                        ("net", JInt 20)])]);
    ("DEPARTMENTS", JList [JDict [("code", JStr "A"); ("name", JStr "Dept A");
                                  ("house", JInt 50);
                                  ("agencies", JList [JDict [("code", JStr "A1");
                                                             ("name", JStr "Agency 1");
                                                             ("house", JInt 50)]])]])])].


Definition sample : json :=
  JDict [("COMMITTEE_REPORT_HBN_4058", JDict [
    ("unit", JStr "Thousand Pesos");
    ("summary", JDict [("Total", JDict [("house", JInt 100); ("senate", JInt 120)]);
                       ("Unprogrammed", JDict [])]);
    ("DEPARTMENTS", JList [
       JDict [("code", JStr "A"); ("name", JStr "Dept A"); ("house", JInt 50);
              ("agencies", JList [
                 JDict [("code", JStr "A1"); ("name", JStr "Agency 1");
                        ("sub_agencies", JList [JDict [("code", JStr "A1a")];
                                                JDict [("name", JStr "Unit b");
                                                       ("net", JInt 7)]])];
                 JDict [("name", JStr "Agency 2"); ("senate", JFloat 1.5)]])];
       JDict [("name", JStr "Dept B")]]);
    ("SPECIAL_PURPOSE_FUNDS", JList [
       JDict [("code", JStr "F"); ("name", JStr "Fund F");
              ("agencies", JList [JDict [("code", JStr "F1"); ("increase", JInt 3)];
                                  JDict []])];
       JDict [("house", JInt 9)]])])].

(** Stand-ins for the library calls, good for the sample files below:
    [loads] knows the texts [empty_text] and [small_text] and takes any
    other text for one that is not JSON; [csv] and [str] render integers
    and strings that need no quoting. *)
Definition dq : string := String (ascii_of_nat 34) EmptyString.
Definition quoted (s : string) : string := dq +:+ s +:+ dq.

Definition empty_text : string := "{}".

Definition small_text : string :=
  "{" +:+ quoted "COMMITTEE_REPORT_HBN_4058" +:+ ": {" +:+ quoted "summary"
  +:+ ": {" +:+ quoted "Total" +:+ ": {" +:+ quoted "house" +:+ ": 100}}}}".

Definition small : json :=
  JDict [("COMMITTEE_REPORT_HBN_4058",
          JDict [("summary", JDict [("Total", JDict [("house", JInt 100)])])])].

Definition loads (text : string) : json + string :=
  if decide (text = empty_text) then inl (JDict [])
  else if decide (text = small_text) then inl small
  else inr "Expecting value: line 1 column 1 (char 0)".

Definition str (v : json) : string :=
  match v with
  | JStr s => s
  | JInt n => pretty n
  | JNull => "None"
  | JBool true => "True"
  | JBool false => "False"
  | _ => "..."
  end.

Definition cell (v : json) : string :=
  match v with
  | JNull => ""
  | _ => str v
  end.

Definition crlf : string :=
  String (ascii_of_nat 13) (String (ascii_of_nat 10) EmptyString).

Definition line (cells : list string) : string :=
  String.concat "," cells +:+ crlf.

Definition csv (header : list string) (rows : list Row) : string :=
  line header
  +:+ String.concat ""
        (map (fun row =>
                line [Level row; cell (Department_Code row);
                      cell (Department_Name row); cell (Agency_Code row);
                      cell (Agency_Name row); cell (Sub_Agency_Code row);
                      cell (Sub_Agency_Name row); cell (House row);
                      cell (Increase row); cell (Decrease row);
                      cell (Net row); cell (Senate row)])
             rows).

Definition script : string := "json_to_csv.py".

(** A document of an unusual shape that the loops still accept: an empty
    string for the departments, an empty mapping for the agencies of a
    fund, values that are not numbers or strings. *)
Definition lenient : json :=
  JDict [("COMMITTEE_REPORT_HBN_4058",
          JDict [("summary", JDict [("Total", JDict [("net", JStr "n/a")])]);
                 ("DEPARTMENTS", JStr "");
                 ("SPECIAL_PURPOSE_FUNDS",
                  JList [JDict [("name", JNull); ("agencies", JDict [])]])])].

(** [loads], knowing the empty array too. *)
Definition loads_array (text : string) : json + string :=
  if decide (text = "[]") then inl (JList []) else loads text.

(** Stand-ins for the file system and for the faults of writing and
    printing, as a UTF-8 terminal and disk show them: one spelling per
    file, a directory that is missing, and text with a lone surrogate
    (kept in its three-byte form), which cannot be encoded. *)
Definition resolve (path : string) : string := path.

Definition open_fault (path : string) : option exn :=
  if decide (path = "missing/out.csv") then Some OSError else None.

Fixpoint has_surrogate (s : string) : bool :=
  match s with
  | String c (String d _ as rest) =>
      (nat_of_ascii c =? 237)%nat && (160 <=? nat_of_ascii d)%nat
      && (nat_of_ascii d <? 192)%nat
      || has_surrogate rest
  | _ => false
  end.

Definition cells (row : Row) : list string :=
  [Level row; cell (Department_Code row); cell (Department_Name row);
   cell (Agency_Code row); cell (Agency_Name row);
   cell (Sub_Agency_Code row); cell (Sub_Agency_Name row);
   cell (House row); cell (Increase row); cell (Decrease row);
   cell (Net row); cell (Senate row)].

Definition encodable (row : Row) : bool :=
  negb (existsb has_surrogate (cells row)).

Fixpoint encodable_prefix (rows : list Row) : list Row :=
  match rows with
  | [] => []
  | row :: rest => if encodable row then row :: encodable_prefix rest else []
  end.

Definition write_fault (path : string) (header : list string)
    (rows : list Row) : option (string * exn) :=
  if forallb encodable rows then None
  else Some (csv header (encodable_prefix rows), UnicodeEncodeError).

Definition print_fault (line : string) : option exn :=
  if has_surrogate line then Some UnicodeEncodeError else None.

(** A summary with a key that is a lone surrogate, U+D800. *)
Definition surrogate : string :=
  String (ascii_of_nat 237)
    (String (ascii_of_nat 160) (String (ascii_of_nat 128) EmptyString)).

Definition surrogate_text : string :=
  "{" +:+ quoted "COMMITTEE_REPORT_HBN_4058" +:+ ": {" +:+ quoted "summary"
  +:+ ": {" +:+ quoted "Total" +:+ ": {}, "
  +:+ quoted (String (ascii_of_nat 92) "ud800") +:+ ": {}}}}".

Definition surrogate_document : json :=
  JDict [("COMMITTEE_REPORT_HBN_4058",
          JDict [("summary", JDict [("Total", JDict []);
                                    (surrogate, JDict [])])])].

Definition loads_surrogate (text : string) : json + string :=
  if decide (text = surrogate_text) then inl surrogate_document
  else loads_array text.

(** A run of [main] with these stand-ins and a decoder. *)
Definition run (decoder : string -> json + string) :=
  main resolve decoder open_fault csv write_fault str print_fault.

Definition lenient_rows : list Row :=
  [ mkRow "Summary" (JStr "") (JStr "Total") (JStr "") (JStr "")
      (JStr "") (JStr "")
      (JInt 0) (JInt 0) (JInt 0) (JStr "n/a") (JInt 0);
    mkRow "Special Purpose Fund" (JStr "") JNull (JStr "") (JStr "")
      (JStr "") (JStr "")
      (JInt 0) (JInt 0) (JInt 0) (JInt 0) (JInt 0) ].

End Sample.

(** * Properties *)

(** ** Loops that only append *)

Lemma for_each_emit {A B} (xs : list A) (body : A -> list B -> result (list B))
    (emit : A -> list B) :
  (forall x rows, x ∈ xs -> body x rows = Ok (rows ++ emit x)) ->
  forall rows, for_each xs body rows = Ok (rows ++ flat_map emit xs).
Proof.
  induction xs as [|x xs IH]; intros Hbody rows; simpl.
  - by rewrite app_nil_r.
  - rewrite Hbody by left. simpl.
    rewrite IH by (intros; apply Hbody; by right).
    by rewrite <- app_assoc.
Qed.

Lemma flat_map_singleton {A B} (f : A -> B) (xs : list A) :
  flat_map (fun x => [f x]) xs = map f xs.
Proof. induction xs; simpl; congruence. Qed.

Lemma map_flat_map {A B C} (g : B -> C) (f : A -> list B) (xs : list A) :
  map g (flat_map f xs) = flat_map (fun x => map g (f x)) xs.
Proof.
  induction xs as [|x xs IH]; simpl; [done|]. by rewrite map_app, IH.
Qed.

Lemma wf_children_inv node k wf_child :
  wf_children node k wf_child = true ->
  iter (field node k (JList [])) = Ok (sequence (field node k (JList [])))
  /\ forall x, x ∈ sequence (field node k (JList [])) -> wf_child x = true.
Proof.
  unfold wf_children. intros [Hl Hall]%andb_prop. split.
  - by destruct (field node k (JList [])).
  - intros x Hx. rewrite forallb_forall in Hall. apply Hall.
    by apply list_elem_of_In.
Qed.

Lemma get_field node k dflt :
  is_dict node = true -> get node k dflt = Ok (field node k dflt).
Proof. by destruct node. Qed.

Lemma items_mapping v : is_dict v = true -> items v = Ok (mapping v).
Proof. by destruct v. Qed.

Ltac read_fields := rewrite ?get_field by assumption; cbn [bind].

(** ** The loops compute the traversal *)

Lemma flatten_refines data :
  wf_document data = true ->
  flatten_json_to_rows data = Ok (map spec_row (traversal data)).
Proof.
  unfold wf_document. rewrite !andb_true_iff.
  intros (((((Hdata & Hreport) & Hsummary) & Hentries) & Hdepts) & Hfunds).
  apply wf_children_inv in Hdepts as [Hdepts_it Hdepts].
  apply wf_children_inv in Hfunds as [Hfunds_it Hfunds].
  unfold flatten_json_to_rows.
  rewrite (get_field data) by done. cbn [bind]. fold (report_of data).
  rewrite !(get_field (report_of data)) by done. cbn [bind].
  rewrite items_mapping by done. cbn [bind].
  rewrite (for_each_emit _ _ (fun kv => [spec_row (VSummary (fst kv) (snd kv))])).
  2:{ intros [key values] rows Hin.
      assert (is_dict values = true) as Hv.
      { rewrite forallb_forall in Hentries.
        apply (Hentries (key, values)). by apply list_elem_of_In. }
      by read_fields. }
  cbn [bind]. rewrite Hdepts_it. cbn [bind].
  rewrite (for_each_emit _ _ (fun dept => map spec_row (visit_department dept))).
  2:{ intros dept rows Hin. specialize (Hdepts _ Hin).
      unfold wf_department in Hdepts. apply andb_prop in Hdepts as [Hd Hags].
      apply wf_children_inv in Hags as [Hags_it Hags].
      read_fields. rewrite Hags_it. cbn [bind].
      rewrite (for_each_emit _ _ (fun agency => map spec_row (visit_agency dept agency))).
      2:{ intros agency rows' Hin'. specialize (Hags _ Hin').
          unfold wf_agency in Hags. apply andb_prop in Hags as [Ha Hsubs].
          apply wf_children_inv in Hsubs as [Hsubs_it Hsubs].
          read_fields. rewrite Hsubs_it. cbn [bind].
          rewrite (for_each_emit _ _
                     (fun sub => [spec_row (VSubAgency dept agency sub)])).
          2:{ intros sub rows'' Hin''. specialize (Hsubs _ Hin'').
              by read_fields. }
          rewrite flat_map_singleton. unfold visit_agency.
          rewrite <- app_assoc. cbn [map app]. rewrite map_map. reflexivity. }
      unfold visit_department. rewrite <- app_assoc. cbn [map app].
      rewrite map_flat_map. reflexivity. }
  cbn [bind]. rewrite Hfunds_it. cbn [bind].
  rewrite (for_each_emit _ _ (fun fund => map spec_row (visit_fund fund))).
  2:{ intros fund rows Hin. specialize (Hfunds _ Hin).
      unfold wf_fund in Hfunds. apply andb_prop in Hfunds as [Hf Hags].
      apply wf_children_inv in Hags as [Hags_it Hags].
      read_fields. rewrite Hags_it. cbn [bind].
      rewrite (for_each_emit _ _ (fun agency => [spec_row (VSpfAgency fund agency)])).
      2:{ intros agency rows' Hin'. specialize (Hags _ Hin'). by read_fields. }
      rewrite flat_map_singleton. unfold visit_fund.
      rewrite <- app_assoc. cbn [map app]. rewrite map_map. reflexivity. }
  cbn [bind]. f_equal. unfold traversal. rewrite !map_app, flat_map_singleton, !map_flat_map, map_map.
  by rewrite <- app_assoc.
Qed.

(** ** Facts about the traversal *)

Lemma length_flat_map_sum {A B} (f : A -> list B) (xs : list A) :
  length (flat_map f xs) = sum_list_with (fun x => length (f x)) xs.
Proof.
  induction xs as [|x xs IH]; simpl; [done|]. by rewrite length_app, IH.
Qed.

Lemma sum_list_with_succ {A} (g : A -> nat) (xs : list A) :
  sum_list_with (fun x => S (g x)) xs = length xs + sum_list_with g xs.
Proof. induction xs as [|x xs IH]; simpl; lia. Qed.

Lemma sum_list_with_plus {A} (g h : A -> nat) (xs : list A) :
  sum_list_with (fun x => g x + h x) xs
  = sum_list_with g xs + sum_list_with h xs.
Proof. induction xs as [|x xs IH]; simpl; lia. Qed.

Lemma sum_list_with_pointwise {A} (g h : A -> nat) (xs : list A) :
  (forall x, g x = h x) -> sum_list_with g xs = sum_list_with h xs.
Proof. intros E. induction xs as [|x xs IH]; simpl; [done|]. by rewrite E, IH. Qed.

Lemma visit_agency_length dept agency :
  length (visit_agency dept agency) = S (length (sub_agencies_of agency)).
Proof. unfold visit_agency. cbn [length]. by rewrite length_map. Qed.

Lemma visit_department_length dept :
  length (visit_department dept)
  = S (length (agencies_of dept)
       + sum_list_with (fun agency => length (sub_agencies_of agency))
           (agencies_of dept)).
Proof.
  unfold visit_department. cbn [length]. rewrite length_flat_map_sum.
  rewrite (sum_list_with_pointwise _ _ _ (visit_agency_length dept)).
  by rewrite sum_list_with_succ.
Qed.

Lemma visit_fund_length fund :
  length (visit_fund fund) = S (length (agencies_of fund)).
Proof. unfold visit_fund. cbn [length]. by rewrite length_map. Qed.

Lemma traversal_length data : length (traversal data) = node_count data.
Proof.
  unfold traversal, node_count.
  rewrite !length_app, length_map, !length_flat_map_sum.
  rewrite (sum_list_with_pointwise _ _ _ visit_department_length).
  rewrite (sum_list_with_pointwise _ _ _ visit_fund_length).
  rewrite !sum_list_with_succ, sum_list_with_plus. lia.
Qed.

Lemma elem_of_flat_map {A B} (f : A -> list B) (xs : list A) (y : B) :
  y ∈ flat_map f xs <-> exists x, x ∈ xs /\ y ∈ f x.
Proof.
  rewrite list_elem_of_In, in_flat_map.
  split; intros (x & Hx & Hy); exists x; by rewrite ?list_elem_of_In in *.
Qed.

Lemma elem_of_map {A B} (f : A -> B) (xs : list A) (y : B) :
  y ∈ map f xs <-> exists x, x ∈ xs /\ y = f x.
Proof.
  rewrite list_elem_of_In, in_map_iff.
  split; intros (x & H1 & H2); exists x; by rewrite ?list_elem_of_In in *.
Qed.

Lemma elem_of_traversal data v : v ∈ traversal data <-> enclosed data v.
Proof.
  unfold traversal. rewrite !elem_of_app, elem_of_map, !elem_of_flat_map.
  unfold visit_department, visit_fund.
  setoid_rewrite elem_of_cons. setoid_rewrite elem_of_flat_map.
  setoid_rewrite elem_of_map. unfold visit_agency.
  setoid_rewrite elem_of_cons. setoid_rewrite elem_of_map.
  split.
  - intros [([key values] & Hin & ->)
           |[(dept & Hd & [->|(agency & Ha & [->|(sub & Hs & ->)])])
            |(fund & Hf & [->|(agency & Ha & ->)])]]; simpl; auto.
  - destruct v as [key values|dept|dept agency|dept agency sub|fund|fund agency];
      simpl.
    + intros Hin. left. by exists (key, values).
    + intros Hd. right; left. exists dept. auto.
    + intros [Hd Ha]. right; left. exists dept. split; [done|].
      right. exists agency. auto.
    + intros (Hd & Ha & Hs). right; left. exists dept. split; [done|].
      right. exists agency. split; [done|]. right. by exists sub.
    + intros Hf. right; right. exists fund. auto.
    + intros [Hf Ha]. right; right. exists fund. split; [done|].
      right. by exists agency.
Qed.

Lemma wf_children_elem node k wf_child :
  wf_children node k wf_child = true ->
  forall x, x ∈ sequence (field node k (JList [])) -> wf_child x = true.
Proof. intros H. by apply wf_children_inv. Qed.

(** In a well-formed document every visited node is a mapping. *)
Lemma visited_nodes_are_dicts data v :
  wf_document data = true -> v ∈ traversal data -> is_dict (node_of v) = true.
Proof.
  unfold wf_document. rewrite !andb_true_iff.
  intros (((((_ & _) & _) & Hentries) & Hdepts) & Hfunds).
  rewrite elem_of_traversal.
  pose proof (wf_children_elem _ _ _ Hdepts) as Hd.
  pose proof (wf_children_elem _ _ _ Hfunds) as Hf.
  destruct v as [key values|dept|dept agency|dept agency sub|fund|fund agency];
    simpl.
  - intros Hin. rewrite forallb_forall in Hentries.
    apply (Hentries (key, values)). by apply list_elem_of_In.
  - intros Hin. specialize (Hd _ Hin). unfold wf_department in Hd.
    by apply andb_prop in Hd as [? _].
  - intros [Hin Ha]. specialize (Hd _ Hin). unfold wf_department in Hd.
    apply andb_prop in Hd as [_ Hags].
    pose proof (wf_children_elem _ _ _ Hags _ Ha) as Hag.
    unfold wf_agency in Hag. by apply andb_prop in Hag as [? _].
  - intros (Hin & Ha & Hs). specialize (Hd _ Hin). unfold wf_department in Hd.
    apply andb_prop in Hd as [_ Hags].
    pose proof (wf_children_elem _ _ _ Hags _ Ha) as Hag.
    unfold wf_agency in Hag. apply andb_prop in Hag as [_ Hsubs].
    exact (wf_children_elem _ _ _ Hsubs _ Hs).
  - intros Hin. specialize (Hf _ Hin). unfold wf_fund in Hf.
    by apply andb_prop in Hf as [? _].
  - intros [Hin Ha]. specialize (Hf _ Hin). unfold wf_fund in Hf.
    apply andb_prop in Hf as [_ Hags].
    exact (wf_children_elem _ _ _ Hags _ Ha).
Qed.

(** A property of every visit and its row holds along the whole output. *)
Lemma Forall2_rows {A B} (P : A -> B -> Prop) (f : A -> B) (xs : list A) :
  (forall x, x ∈ xs -> P x (f x)) -> Forall2 P xs (map f xs).
Proof.
  induction xs as [|x xs IH]; intros H; simpl; constructor.
  - apply H. by left.
  - apply IH. intros y Hy. apply H. by right.
Qed.

Lemma field_absent node k dflt :
  has_key node k = false -> field node k dflt = dflt.
Proof.
  destruct node; simpl; try done.
  rewrite bool_decide_eq_false. by destruct (lookup_key k items0) as [x|]; [intros []|].
Qed.

(** ** Malformed documents *)

(** Values of the wrong shape reach the caller as exceptions. *)
Example departments_null :
  flatten_json_to_rows
    (JDict [("COMMITTEE_REPORT_HBN_4058", JDict [("DEPARTMENTS", JNull)])])
  = Raise TypeError.
Proof. reflexivity. Qed.

Example department_not_a_mapping :
  flatten_json_to_rows
    (JDict [("COMMITTEE_REPORT_HBN_4058",
             JDict [("summary", JDict [("Total", JDict [])]);
                    ("DEPARTMENTS", JList [JStr "DA"])])])
  = Raise AttributeError.
Proof. reflexivity. Qed.

Example top_level_list : flatten_json_to_rows (JList []) = Raise AttributeError.
Proof. reflexivity. Qed.

(** An empty string or an empty mapping in the place of a sequence is
    iterated zero times. *)
Example departments_empty_string :
  flatten_json_to_rows
    (JDict [("COMMITTEE_REPORT_HBN_4058", JDict [("DEPARTMENTS", JStr "")])])
  = Ok [].
Proof. reflexivity. Qed.

(** ** The flattener's contract *)

(** C1.  On a well-formed document [flatten_json_to_rows] returns one row
    per summary entry, department, agency of a department, sub-agency of
    such an agency, fund and agency of a fund, and the rows are those of
    the depth-first traversal, in its order: a parent before its children,
    siblings in document order. *)
Theorem row_count_and_order data :
  wf_document data = true ->
  exists rows,
    flatten_json_to_rows data = Ok rows
    /\ length rows = node_count data
    /\ rows = map spec_row (traversal data).
Proof.
  intros Hwf. exists (map spec_row (traversal data)).
  split; [by apply flatten_refines|]. split; [|done].
  by rewrite length_map, traversal_length.
Qed.

Lemma row_count_and_order_sample :
  exists rows,
    flatten_json_to_rows Sample.sample = Ok rows
    /\ length rows = node_count Sample.sample
    /\ rows = map spec_row (traversal Sample.sample).
Proof. apply (row_count_and_order Sample.sample). reflexivity. Defined.

(** Agencies of a fund are leaves of the traversal: what they list under
    "sub_agencies" yields no row. *)
Example fund_agencies_do_not_recurse :
  flatten_json_to_rows
    (JDict [("COMMITTEE_REPORT_HBN_4058", JDict [
       ("SPECIAL_PURPOSE_FUNDS", JList [
          JDict [("code", JStr "F");
                 ("agencies", JList [
                    JDict [("code", JStr "F1");
                           ("sub_agencies", JList [JDict [("code", JStr "F1a")]])]])]])])])
  = Ok [ mkRow "Special Purpose Fund" (JStr "F") (JStr "") (JStr "") (JStr "")
           (JStr "") (JStr "") (JInt 0) (JInt 0) (JInt 0) (JInt 0) (JInt 0);
         mkRow "SPF Agency" (JStr "F") (JStr "") (JStr "F1") (JStr "")
           (JStr "") (JStr "") (JInt 0) (JInt 0) (JInt 0) (JInt 0) (JInt 0) ].
Proof. reflexivity. Qed.

(** C2.  Every special purpose fund has a row of level
    "Special Purpose Fund" with its code and name in the Department
    columns, and every agency of the fund a row of level "SPF Agency" with
    the fund in the Department columns, the agency in the Agency columns
    and both Sub-Agency columns empty. *)
Theorem special_purpose_fund_rows data :
  wf_document data = true ->
  exists rows,
    flatten_json_to_rows data = Ok rows
    /\ forall fund, fund ∈ funds_of data ->
         (exists row, row ∈ rows
            /\ Level row = "Special Purpose Fund"
            /\ Department_Code row = label fund "code"
            /\ Department_Name row = label fund "name")
         /\ forall agency, agency ∈ agencies_of fund ->
              exists row, row ∈ rows
                /\ Level row = "SPF Agency"
                /\ Department_Code row = label fund "code"
                /\ Department_Name row = label fund "name"
                /\ Agency_Code row = label agency "code"
                /\ Agency_Name row = label agency "name"
                /\ Sub_Agency_Code row = JStr ""
                /\ Sub_Agency_Name row = JStr "".
Proof.
  intros Hwf. exists (map spec_row (traversal data)).
  split; [by apply flatten_refines|].
  intros fund Hfund. split.
  - exists (spec_row (VFund fund)). split; [|done].
    apply elem_of_map. exists (VFund fund). split; [|done].
    by apply elem_of_traversal.
  - intros agency Hagency. exists (spec_row (VSpfAgency fund agency)).
    split; [|by repeat split].
    apply elem_of_map. exists (VSpfAgency fund agency). split; [|done].
    by apply elem_of_traversal.
Qed.

Lemma special_purpose_fund_rows_sample :
  exists rows,
    flatten_json_to_rows Sample.sample = Ok rows
    /\ forall fund, fund ∈ funds_of Sample.sample ->
         (exists row, row ∈ rows
            /\ Level row = "Special Purpose Fund"
            /\ Department_Code row = label fund "code"
            /\ Department_Name row = label fund "name")
         /\ forall agency, agency ∈ agencies_of fund ->
              exists row, row ∈ rows
                /\ Level row = "SPF Agency"
                /\ Department_Code row = label fund "code"
                /\ Department_Name row = label fund "name"
                /\ Agency_Code row = label agency "code"
                /\ Agency_Name row = label agency "name"
                /\ Sub_Agency_Code row = JStr ""
                /\ Sub_Agency_Name row = JStr "".
Proof. apply (special_purpose_fund_rows Sample.sample). reflexivity. Defined.

(** C4.  At every level a numeric field that the node lacks is read
    without an exception and appears as 0 in its column of the node's
    row. *)
Theorem missing_amounts_are_zero data :
  wf_document data = true ->
  exists rows,
    flatten_json_to_rows data = Ok rows
    /\ Forall2
         (fun v row =>
            forall f : numeric,
              has_key (node_of v) (key_of f) = false ->
              get (node_of v) (key_of f) (JInt 0) = Ok (JInt 0)
              /\ column f row = JInt 0)
         (traversal data) rows.
Proof.
  intros Hwf. exists (map spec_row (traversal data)).
  split; [by apply flatten_refines|].
  apply Forall2_rows. intros v Hv f Hmissing.
  pose proof (visited_nodes_are_dicts _ _ Hwf Hv) as Hdict.
  rewrite get_field by done.
  pose proof (field_absent _ _ (JInt 0) Hmissing) as Hzero.
  rewrite Hzero. split; [done|].
  destruct v, f; exact Hzero.
Qed.

Lemma missing_amounts_are_zero_sample :
  exists rows,
    flatten_json_to_rows Sample.sample = Ok rows
    /\ Forall2
         (fun v row =>
            forall f : numeric,
              has_key (node_of v) (key_of f) = false ->
              get (node_of v) (key_of f) (JInt 0) = Ok (JInt 0)
              /\ column f row = JInt 0)
         (traversal Sample.sample) rows.
Proof. apply (missing_amounts_are_zero Sample.sample). reflexivity. Defined.

(** C5.  The scenario of the specification yields exactly three rows: the
    Summary row of "Total", the Department row of "A" and the Agency row
    of "A1", with 0 for every amount the input does not give. *)
Theorem scenario_rows :
  flatten_json_to_rows Sample.scenario
  = Ok [ mkRow "Summary" (JStr "") (JStr "Total") (JStr "") (JStr "")
           (JStr "") (JStr "")
           (JInt 100) (JInt 20) (JInt 0) (JInt 20) (JInt 120);
         mkRow "Department" (JStr "A") (JStr "Dept A") (JStr "") (JStr "")
           (JStr "") (JStr "")
           (JInt 50) (JInt 0) (JInt 0) (JInt 0) (JInt 0);
         mkRow "Agency" (JStr "A") (JStr "Dept A") (JStr "A1") (JStr "Agency 1")
           (JStr "") (JStr "")
           (JInt 50) (JInt 0) (JInt 0) (JInt 0) (JInt 0) ].
Proof. reflexivity. Qed.

(** C9.  Every row is the row of a node of the document in its place in
    the hierarchy, and repeats the identity of the nodes that enclose it:
    an Agency or Sub-Agency row the code and name of its department, a
    Sub-Agency row also those of its agency, an SPF Agency row those of
    its fund. *)
Theorem rows_carry_enclosing_identity data :
  wf_document data = true ->
  exists rows,
    flatten_json_to_rows data = Ok rows
    /\ Forall2
         (fun v row =>
            enclosed data v /\ Level row = level_of v /\ carries_parents v row)
         (traversal data) rows.
Proof.
  intros Hwf. exists (map spec_row (traversal data)).
  split; [by apply flatten_refines|].
  apply Forall2_rows. intros v Hv. split; [by apply elem_of_traversal|].
  destruct v; simpl; auto.
Qed.

Lemma rows_carry_enclosing_identity_sample :
  exists rows,
    flatten_json_to_rows Sample.sample = Ok rows
    /\ Forall2
         (fun v row =>
            enclosed Sample.sample v /\ Level row = level_of v
            /\ carries_parents v row)
         (traversal Sample.sample) rows.
Proof. apply (rows_carry_enclosing_identity Sample.sample). reflexivity. Defined.

(** C10.  A department, agency, sub-agency or fund (or agency of a fund)
    without a code, or without a name, has the empty string in the code,
    or name, column of its level. *)
Theorem missing_labels_are_empty data :
  wf_document data = true ->
  exists rows,
    flatten_json_to_rows data = Ok rows
    /\ Forall2
         (fun v row =>
            forall code name,
              own_columns v row = Some (code, name) ->
              (has_key (node_of v) "code" = false -> code = JStr "")
              /\ (has_key (node_of v) "name" = false -> name = JStr ""))
         (traversal data) rows.
Proof.
  intros Hwf. exists (map spec_row (traversal data)).
  split; [by apply flatten_refines|].
  apply Forall2_rows. intros v _ code name Hown.
  destruct v; simpl in Hown; inversion Hown; subst; clear Hown;
    split; intros Hmissing; exact (field_absent _ _ (JStr "") Hmissing).
Qed.

Lemma missing_labels_are_empty_sample :
  exists rows,
    flatten_json_to_rows Sample.sample = Ok rows
    /\ Forall2
         (fun v row =>
            forall code name,
              own_columns v row = Some (code, name) ->
              (has_key (node_of v) "code" = false -> code = JStr "")
              /\ (has_key (node_of v) "name" = false -> name = JStr ""))
         (traversal Sample.sample) rows.
Proof. apply (missing_labels_are_empty Sample.sample). reflexivity. Defined.

(** ** The shell *)

Section ShellFacts.

Variable resolve : string -> string.
Variable json_loads : string -> json + string.
Variable open_fault : string -> option exn.
Variable csv_text : list string -> list Row -> string.
Variable write_fault : string -> list string -> list Row -> option (string * exn).
Variable py_str : json -> string.
Variable print_fault : string -> option exn.

Let run :=
  main resolve json_loads open_fault csv_text write_fault py_str print_fault.

Lemma argv_input (argv : list string) :
  (if bool_decide (1 < length argv) then default "2026.json" (argv !! 1)
   else "2026.json") = input_path argv.
Proof.
  unfold input_path. case_bool_decide; [done|].
  by rewrite lookup_ge_None_2 by lia.
Qed.

Lemma argv_output (argv : list string) :
  (if bool_decide (2 < length argv) then default "2026.csv" (argv !! 2)
   else "2026.csv") = output_path argv.
Proof.
  unfold output_path. case_bool_decide; [done|].
  by rewrite lookup_ge_None_2 by lia.
Qed.






End ShellFacts.





(** * Beyond the specification *)

(** ** Which documents the flattener accepts *)

Lemma bind_Ok_inv {A B} (m : result A) (f : A -> result B) (b : B) :
  bind m f = Ok b -> exists a, m = Ok a /\ f a = Ok b.
Proof. destruct m as [a|e]; simpl; [by eauto|discriminate]. Qed.

Lemma get_Ok_inv {B} node k dflt (f : json -> result B) (b : B) :
  bind (get node k dflt) f = Ok b ->
  is_dict node = true /\ f (field node k dflt) = Ok b.
Proof. destruct node; simpl; try discriminate. auto. Qed.

Lemma for_each_Ok_all {A S} (xs : list A) (body : A -> S -> result S) s s' :
  for_each xs body s = Ok s' ->
  forall x, x ∈ xs -> exists s1 s2, body x s1 = Ok s2.
Proof.
  revert s. induction xs as [|y xs IH]; intros s Hloop x Hx.
  - by apply elem_of_nil in Hx.
  - simpl in Hloop. apply bind_Ok_inv in Hloop as (s1 & Hy & Hrest).
    apply elem_of_cons in Hx as [->|Hx]; [by eauto|by eapply IH].
Qed.

Lemma loops_over_iter ok v :
  loops_over ok v = true ->
  iter v = Ok (sequence v) /\ forall x, x ∈ sequence v -> ok x = true.
Proof.
  destruct v as [| | | |s|xs|kvs]; simpl; try discriminate.
  - destruct (chars s); [|discriminate]. intros _. split; [done|].
    intros x Hx. by apply elem_of_nil in Hx.
  - intros Hall. split; [done|]. intros x Hx.
    rewrite forallb_forall in Hall. apply Hall. by apply list_elem_of_In.
  - destruct kvs; [|discriminate]. intros _. split; [done|].
    intros x Hx. by apply elem_of_nil in Hx.
Qed.

(** A loop over [iter v] whose body needs a mapping only ends normally
    when [v] suits it. *)
Lemma iter_loop_Ok {S} (ok : json -> bool) v xs (body : json -> S -> result S)
    s s' :
  (forall x s1 s2, body x s1 = Ok s2 -> ok x = true) ->
  (forall t, ok (JStr t) = false) ->
  iter v = Ok xs ->
  for_each xs body s = Ok s' ->
  loops_over ok v = true.
Proof.
  intros Hbody Hstr Hiter Hloop.
  pose proof (for_each_Ok_all _ _ _ _ Hloop) as Hall.
  assert (forall x, x ∈ xs -> ok x = true) as Hok.
  { intros x Hx. destruct (Hall x Hx) as (s1 & s2 & Hx'). by eapply Hbody. }
  assert (forall t, JStr t ∈ xs -> False) as Hno.
  { intros t Ht. specialize (Hok _ Ht). by rewrite Hstr in Hok. }
  destruct v as [| | | |t|ys|kvs]; simpl in Hiter; try discriminate;
    injection Hiter as <-; simpl.
  - destruct (chars t) as [|c cs]; [done|]. exfalso. apply (Hno c). by left.
  - apply forallb_forall. intros x Hx. apply Hok. by apply list_elem_of_In.
  - destruct kvs as [|[k w] kvs]; [done|]. exfalso. apply (Hno k). by left.
Qed.

Lemma items_Ok_inv {B} v (f : list (string * json) -> result B) (b : B) :
  bind (items v) f = Ok b -> is_dict v = true /\ f (mapping v) = Ok b.
Proof. destruct v; simpl; try discriminate. auto. Qed.

Ltac read_in H :=
  repeat (apply get_Ok_inv in H as [? H]; cbv beta zeta in H).

Lemma flatten_accepts data rows :
  flatten_json_to_rows data = Ok rows -> accepts_document data = true.
Proof.
  unfold flatten_json_to_rows. cbv zeta. intros H.
  apply get_Ok_inv in H as [Hdata H]. fold (report_of data) in H.
  apply get_Ok_inv in H as [Hreport H].
  apply items_Ok_inv in H as [Hsummary H].
  apply bind_Ok_inv in H as (rows1 & Hloop1 & H).
  apply get_Ok_inv in H as [_ H].
  apply bind_Ok_inv in H as (depts & Hiter2 & H).
  apply bind_Ok_inv in H as (rows2 & Hloop2 & H).
  apply get_Ok_inv in H as [_ H].
  apply bind_Ok_inv in H as (funds & Hiter3 & H).
  apply bind_Ok_inv in H as (rows3 & Hloop3 & _).
  unfold accepts_document. rewrite Hdata, Hreport, Hsummary. cbn [andb].
  rewrite !andb_true_iff. split; [split|].
  - apply forallb_forall. intros [key values] Hin%list_elem_of_In.
    destruct (for_each_Ok_all _ _ _ _ Hloop1 _ Hin) as (s1 & s2 & Hbody).
    cbv beta iota in Hbody. by apply get_Ok_inv in Hbody as [? _].
  - refine (iter_loop_Ok _ _ _ _ _ _ _ (fun _ => eq_refl) Hiter2 Hloop2).
    intros dept s1 s2 Hbody. read_in Hbody.
    apply bind_Ok_inv in Hbody as (ags & Hiter & Hloop).
    unfold accepts_department. apply andb_true_intro. split; [done|].
    refine (iter_loop_Ok _ _ _ _ _ _ _ (fun _ => eq_refl) Hiter Hloop).
    intros agency t1 t2 Hbody. read_in Hbody.
    apply bind_Ok_inv in Hbody as (subs & Hiter' & Hloop').
    unfold accepts_agency. apply andb_true_intro. split; [done|].
    refine (iter_loop_Ok _ _ _ _ _ _ _ (fun _ => eq_refl) Hiter' Hloop').
    intros sub u1 u2 Hbody. by apply get_Ok_inv in Hbody as [? _].
  - refine (iter_loop_Ok _ _ _ _ _ _ _ (fun _ => eq_refl) Hiter3 Hloop3).
    intros fund s1 s2 Hbody. read_in Hbody.
    apply bind_Ok_inv in Hbody as (ags & Hiter & Hloop).
    unfold accepts_fund. apply andb_true_intro. split; [done|].
    refine (iter_loop_Ok _ _ _ _ _ _ _ (fun _ => eq_refl) Hiter Hloop).
    intros agency t1 t2 Hbody. by apply get_Ok_inv in Hbody as [? _].
Qed.

Lemma flatten_accepted data :
  accepts_document data = true ->
  flatten_json_to_rows data = Ok (map spec_row (traversal data)).
Proof.
  unfold accepts_document. rewrite !andb_true_iff.
  intros (((((Hdata & Hreport) & Hsummary) & Hentries) & Hdepts) & Hfunds).
  apply loops_over_iter in Hdepts as [Hdepts_it Hdepts].
  apply loops_over_iter in Hfunds as [Hfunds_it Hfunds].
  unfold flatten_json_to_rows.
  rewrite (get_field data) by done. cbn [bind]. fold (report_of data).
  rewrite !(get_field (report_of data)) by done. cbn [bind].
  rewrite items_mapping by done. cbn [bind].
  rewrite (for_each_emit _ _ (fun kv => [spec_row (VSummary (fst kv) (snd kv))])).
  2:{ intros [key values] rows Hin.
      assert (is_dict values = true) as Hv.
      { rewrite forallb_forall in Hentries.
        apply (Hentries (key, values)). by apply list_elem_of_In. }
      by read_fields. }
  cbn [bind]. rewrite Hdepts_it. cbn [bind].
  rewrite (for_each_emit _ _ (fun dept => map spec_row (visit_department dept))).
  2:{ intros dept rows Hin. specialize (Hdepts _ Hin).
      unfold accepts_department in Hdepts. apply andb_prop in Hdepts as [Hd Hags].
      apply loops_over_iter in Hags as [Hags_it Hags].
      read_fields. rewrite Hags_it. cbn [bind].
      rewrite (for_each_emit _ _ (fun agency => map spec_row (visit_agency dept agency))).
      2:{ intros agency rows' Hin'. specialize (Hags _ Hin').
          unfold accepts_agency in Hags. apply andb_prop in Hags as [Ha Hsubs].
          apply loops_over_iter in Hsubs as [Hsubs_it Hsubs].
          read_fields. rewrite Hsubs_it. cbn [bind].
          rewrite (for_each_emit _ _
                     (fun sub => [spec_row (VSubAgency dept agency sub)])).
          2:{ intros sub rows'' Hin''. specialize (Hsubs _ Hin'').
              by read_fields. }
          rewrite flat_map_singleton. unfold visit_agency.
          rewrite <- app_assoc. cbn [map app]. rewrite map_map. reflexivity. }
      unfold visit_department. rewrite <- app_assoc. cbn [map app].
      rewrite map_flat_map. reflexivity. }
  cbn [bind]. rewrite Hfunds_it. cbn [bind].
  rewrite (for_each_emit _ _ (fun fund => map spec_row (visit_fund fund))).
  2:{ intros fund rows Hin. specialize (Hfunds _ Hin).
      unfold accepts_fund in Hfunds. apply andb_prop in Hfunds as [Hf Hags].
      apply loops_over_iter in Hags as [Hags_it Hags].
      read_fields. rewrite Hags_it. cbn [bind].
      rewrite (for_each_emit _ _ (fun agency => [spec_row (VSpfAgency fund agency)])).
      2:{ intros agency rows' Hin'. specialize (Hags _ Hin'). by read_fields. }
      rewrite flat_map_singleton. unfold visit_fund.
      rewrite <- app_assoc. cbn [map app]. rewrite map_map. reflexivity. }
  cbn [bind]. f_equal. unfold traversal. rewrite !map_app, flat_map_singleton, !map_flat_map, map_map.
  by rewrite <- app_assoc.
Qed.

Lemma flatten_returned data rows :
  flatten_json_to_rows data = Ok rows -> rows = map spec_row (traversal data).
Proof.
  intros H. pose proof (flatten_accepted _ (flatten_accepts _ _ H)) as H'.
  congruence.
Qed.

Lemma returned_rows_count data rows :
  flatten_json_to_rows data = Ok rows ->
  rows = map spec_row (traversal data) /\ length rows = node_count data.
Proof.
  intros H. apply flatten_returned in H as ->. split; [done|].
  by rewrite length_map, traversal_length.
Qed.

(** The loops accept more than the well-formed documents. *)
Example lenient_document :
  wf_document Sample.lenient = false
  /\ flatten_json_to_rows Sample.lenient = Ok Sample.lenient_rows.
Proof. split; reflexivity. Qed.

(** X1.  [flatten_json_to_rows] returns rows exactly on the documents in
    which the top level, the report, the summary, every summary entry,
    department, agency, sub-agency, fund and agency of a fund is a mapping
    and every value iterated as children is a list (or an empty mapping or
    string); on every other document it raises. *)
Theorem returns_iff_accepted data :
  (exists rows, flatten_json_to_rows data = Ok rows)
  <-> accepts_document data = true.
Proof.
  split.
  - intros [rows H]. by apply (flatten_accepts data rows).
  - intros H. eexists. by apply flatten_accepted.
Qed.

Lemma returns_iff_accepted_lenient : accepts_document Sample.lenient = true.
Proof.
  apply (proj1 (returns_iff_accepted Sample.lenient)).
  exists Sample.lenient_rows. reflexivity.
Defined.

(** X2.  Whatever the document, when [flatten_json_to_rows] returns, its
    rows are those of the traversal in its order and their number is the
    node count; the shape of the document need not be assumed. *)
Theorem returned_rows_are_the_traversal data rows :
  flatten_json_to_rows data = Ok rows ->
  rows = map spec_row (traversal data) /\ length rows = node_count data.
Proof.
  intros H. apply flatten_returned in H as ->. split; [done|].
  by rewrite length_map, traversal_length.
Qed.

Lemma returned_rows_are_the_traversal_lenient :
  Sample.lenient_rows = map spec_row (traversal Sample.lenient)
  /\ length Sample.lenient_rows = node_count Sample.lenient.
Proof.
  apply (returned_rows_are_the_traversal Sample.lenient Sample.lenient_rows). reflexivity.
Defined.

(** X3.  A field that a node has is copied to its column as it is,
    whatever kind of value it holds: the five amounts, and the code and
    name of the node's own level. *)
Theorem present_fields_pass_through data rows :
  flatten_json_to_rows data = Ok rows ->
  Forall2
    (fun v row =>
       (forall (f : numeric) x,
          lookup_key (key_of f) (mapping (node_of v)) = Some x ->
          column f row = x)
       /\ (forall code name,
             own_columns v row = Some (code, name) ->
             (forall x, lookup_key "code" (mapping (node_of v)) = Some x ->
                        code = x)
             /\ (forall x, lookup_key "name" (mapping (node_of v)) = Some x ->
                           name = x)))
    (traversal data) rows.
Proof.
  intros H. pose proof (flatten_accepts _ _ H) as Hacc.
  apply flatten_returned in H as ->.
  apply Forall2_rows. intros v Hv.
  assert (forall k dflt x,
            lookup_key k (mapping (node_of v)) = Some x ->
            field (node_of v) k dflt = x) as Hfield.
  { intros k dflt x. destruct (node_of v); simpl; try discriminate.
    by intros ->. }
  split.
  - intros f x Hx. destruct v, f; exact (Hfield _ (JInt 0) _ Hx).
  - intros code name Hown.
    destruct v; simpl in Hown; inversion Hown; subst; clear Hown;
      split; intros x Hx; exact (Hfield _ (JStr "") _ Hx).
Qed.

Lemma present_fields_pass_through_lenient :
  Forall2
    (fun v row =>
       (forall (f : numeric) x,
          lookup_key (key_of f) (mapping (node_of v)) = Some x ->
          column f row = x)
       /\ (forall code name,
             own_columns v row = Some (code, name) ->
             (forall x, lookup_key "code" (mapping (node_of v)) = Some x ->
                        code = x)
             /\ (forall x, lookup_key "name" (mapping (node_of v)) = Some x ->
                           name = x)))
    (traversal Sample.lenient) Sample.lenient_rows.
Proof.
  apply (present_fields_pass_through Sample.lenient Sample.lenient_rows). reflexivity.
Defined.

(** X4.  The identity columns that a level does not use hold the empty
    string, and a summary row holds the key of its entry as
    Department_Name. *)
Theorem unused_columns_are_blank data rows :
  flatten_json_to_rows data = Ok rows ->
  Forall2
    (fun v row =>
       Forall (fun cell => cell = JStr "") (unused_columns v row)
       /\ forall key values, v = VSummary key values ->
                             Department_Name row = JStr key)
    (traversal data) rows.
Proof.
  intros H. apply flatten_returned in H as ->.
  apply Forall2_rows. intros v _. split.
  - destruct v; simpl; repeat constructor.
  - intros key values ->. reflexivity.
Qed.

Lemma unused_columns_are_blank_lenient :
  Forall2
    (fun v row =>
       Forall (fun cell => cell = JStr "") (unused_columns v row)
       /\ forall key values, v = VSummary key values ->
                             Department_Name row = JStr key)
    (traversal Sample.lenient) Sample.lenient_rows.
Proof.
  apply (unused_columns_are_blank Sample.lenient Sample.lenient_rows). reflexivity.
Defined.

(** X5.  The flattener returns the empty list only for a document without
    summary entries, departments and funds. *)
Theorem no_rows_iff_nothing_to_visit data rows :
  flatten_json_to_rows data = Ok rows ->
  (rows = [] <->
   summary_of data = [] /\ departments_of data = [] /\ funds_of data = []).
Proof.
  intros H. apply flatten_returned in H as ->. unfold traversal. split.
  - intros Hnil. apply map_eq_nil in Hnil.
    apply app_eq_nil in Hnil as [Hs Hrest].
    apply app_eq_nil in Hrest as [Hd Hf].
    apply map_eq_nil in Hs.
    split; [done|]. split.
    + by destruct (departments_of data).
    + by destruct (funds_of data).
  - by intros (-> & -> & ->).
Qed.

Lemma no_rows_iff_nothing_to_visit_lenient :
  Sample.lenient_rows = [] <->
  summary_of Sample.lenient = [] /\ departments_of Sample.lenient = []
  /\ funds_of Sample.lenient = [].
Proof.
  apply (no_rows_iff_nothing_to_visit Sample.lenient Sample.lenient_rows). reflexivity.
Defined.

(** ** Rows per level *)

Section LevelCount.

Variable level : string.

Let at_level (t : list visit) : nat :=
  length (filter (fun v => level_of v = level) t).

Let when (c : string) (n : nat) : nat := if decide (c = level) then n else 0.

Lemma at_level_cons v t :
  at_level (v :: t) = when (level_of v) 1 + at_level t.
Proof.
  unfold at_level, when. rewrite filter_cons.
  by destruct (decide (level_of v = level)).
Qed.

Lemma at_level_app t1 t2 : at_level (t1 ++ t2) = at_level t1 + at_level t2.
Proof. unfold at_level. by rewrite filter_app, length_app. Qed.

Lemma at_level_map {A} (f : A -> visit) (c : string) (xs : list A) :
  (forall x, level_of (f x) = c) ->
  at_level (map f xs) = when c (length xs).
Proof.
  intros Hc. induction xs as [|x xs IH]; cbn [map length].
  - unfold when. by destruct (decide _).
  - rewrite at_level_cons, IH, Hc. unfold when. by destruct (decide _).
Qed.

Lemma at_level_flat_map {A} (f : A -> list visit) (xs : list A) :
  at_level (flat_map f xs) = sum_list_with (fun x => at_level (f x)) xs.
Proof.
  induction xs as [|x xs IH]; cbn [flat_map sum_list_with]; [done|].
  by rewrite at_level_app, IH.
Qed.

Lemma sum_list_with_when {A} (c : string) (g : A -> nat) (xs : list A) :
  sum_list_with (fun x => when c (g x)) xs = when c (sum_list_with g xs).
Proof.
  unfold when. destruct (decide _); [done|].
  induction xs as [|x xs IH]; simpl; [done|]. by rewrite IH.
Qed.

Lemma sum_list_with_one {A} (xs : list A) :
  sum_list_with (fun _ => 1) xs = length xs.
Proof. induction xs as [|x xs IH]; simpl; [done|]. by rewrite IH. Qed.

Lemma at_level_visit_agency dept agency :
  at_level (visit_agency dept agency)
  = when "Agency" 1 + when "Sub-Agency" (length (sub_agencies_of agency)).
Proof.
  unfold visit_agency. rewrite at_level_cons. f_equal.
  by apply at_level_map.
Qed.

Lemma at_level_visit_department dept :
  at_level (visit_department dept)
  = when "Department" 1
    + when "Agency" (length (agencies_of dept))
    + when "Sub-Agency"
        (sum_list_with (fun agency => length (sub_agencies_of agency))
           (agencies_of dept)).
Proof.
  unfold visit_department. rewrite at_level_cons, at_level_flat_map.
  rewrite (sum_list_with_pointwise _ _ _ (at_level_visit_agency dept)).
  rewrite sum_list_with_plus, !sum_list_with_when, sum_list_with_one.
  cbn [level_of]. lia.
Qed.

Lemma at_level_visit_fund fund :
  at_level (visit_fund fund)
  = when "Special Purpose Fund" 1
    + when "SPF Agency" (length (agencies_of fund)).
Proof.
  unfold visit_fund. rewrite at_level_cons. f_equal. by apply at_level_map.
Qed.

Lemma at_level_traversal data :
  at_level (traversal data)
  = when "Summary" (length (summary_of data))
    + when "Department" (length (departments_of data))
    + when "Agency"
        (sum_list_with (fun dept => length (agencies_of dept))
           (departments_of data))
    + when "Sub-Agency"
        (sum_list_with
           (fun dept =>
              sum_list_with (fun agency => length (sub_agencies_of agency))
                (agencies_of dept))
           (departments_of data))
    + when "Special Purpose Fund" (length (funds_of data))
    + when "SPF Agency"
        (sum_list_with (fun fund => length (agencies_of fund)) (funds_of data)).
Proof.
  unfold traversal. rewrite !at_level_app, !at_level_flat_map.
  rewrite (at_level_map _ "Summary") by done.
  rewrite (sum_list_with_pointwise _ _ _ at_level_visit_department).
  rewrite (sum_list_with_pointwise _ _ _ at_level_visit_fund).
  rewrite !sum_list_with_plus, !sum_list_with_when, !sum_list_with_one. lia.
Qed.

Lemma rows_at_traversal (t : list visit) :
  length (rows_at level (map spec_row t)) = at_level t.
Proof.
  unfold rows_at, at_level. induction t as [|v t IH]; [done|].
  cbn [map]. rewrite !filter_cons.
  replace (Level (spec_row v)) with (level_of v) by by destruct v.
  destruct (decide _); cbn [length]; by rewrite IH.
Qed.

Lemma rows_at_count data rows :
  flatten_json_to_rows data = Ok rows ->
  length (rows_at level rows)
  = when "Summary" (length (summary_of data))
    + when "Department" (length (departments_of data))
    + when "Agency"
        (sum_list_with (fun dept => length (agencies_of dept))
           (departments_of data))
    + when "Sub-Agency"
        (sum_list_with
           (fun dept =>
              sum_list_with (fun agency => length (sub_agencies_of agency))
                (agencies_of dept))
           (departments_of data))
    + when "Special Purpose Fund" (length (funds_of data))
    + when "SPF Agency"
        (sum_list_with (fun fund => length (agencies_of fund)) (funds_of data)).
Proof.
  intros H. apply flatten_returned in H as ->.
  by rewrite rows_at_traversal, at_level_traversal.
Qed.

End LevelCount.

(** X6.  Level by level, the output has one row per node: as many Summary
    rows as summary entries, Department rows as departments, Agency rows
    as agencies of departments, Sub-Agency rows as sub-agencies of those,
    Special Purpose Fund rows as funds and SPF Agency rows as agencies of
    funds. *)
Theorem one_row_per_node_at_each_level data rows :
  flatten_json_to_rows data = Ok rows ->
  length (rows_at "Summary" rows) = length (summary_of data)
  /\ length (rows_at "Department" rows) = length (departments_of data)
  /\ length (rows_at "Agency" rows)
     = sum_list_with (fun dept => length (agencies_of dept))
         (departments_of data)
  /\ length (rows_at "Sub-Agency" rows)
     = sum_list_with
         (fun dept =>
            sum_list_with (fun agency => length (sub_agencies_of agency))
              (agencies_of dept))
         (departments_of data)
  /\ length (rows_at "Special Purpose Fund" rows) = length (funds_of data)
  /\ length (rows_at "SPF Agency" rows)
     = sum_list_with (fun fund => length (agencies_of fund)) (funds_of data).
Proof.
  intros H. repeat split; rewrite (rows_at_count _ _ _ H);
    repeat case_decide; try discriminate; try congruence; lia.
Qed.

Lemma one_row_per_node_at_each_level_sample :
  let data := Sample.sample in
  let rows := map spec_row (traversal data) in
  length (rows_at "Summary" rows) = length (summary_of data)
  /\ length (rows_at "Department" rows) = length (departments_of data)
  /\ length (rows_at "Agency" rows)
     = sum_list_with (fun dept => length (agencies_of dept))
         (departments_of data)
  /\ length (rows_at "Sub-Agency" rows)
     = sum_list_with
         (fun dept =>
            sum_list_with (fun agency => length (sub_agencies_of agency))
              (agencies_of dept))
         (departments_of data)
  /\ length (rows_at "Special Purpose Fund" rows) = length (funds_of data)
  /\ length (rows_at "SPF Agency" rows)
     = sum_list_with (fun fund => length (agencies_of fund)) (funds_of data).
Proof.
  apply (one_row_per_node_at_each_level Sample.sample
           (map spec_row (traversal Sample.sample))).
  reflexivity.
Defined.

(** ** Runs of the shell *)

Section Runs.

Variable resolve : string -> string.
Variable json_loads : string -> json + string.
Variable open_fault : string -> option exn.
Variable csv_text : list string -> list Row -> string.
Variable write_fault : string -> list string -> list Row -> option (string * exn).
Variable py_str : json -> string.
Variable print_fault : string -> option exn.

Let run :=
  main resolve json_loads open_fault csv_text write_fault py_str print_fault.

Let converted :=
  convert resolve json_loads open_fault csv_text write_fault py_str print_fault.

(** After the flattener has returned, reading the unit cannot raise. *)
Lemma unit_after_flatten data rows :
  flatten_json_to_rows data = Ok rows ->
  (let* report := get data "COMMITTEE_REPORT_HBN_4058" (JDict []) in
   get report "unit" (JStr "Thousand Pesos"))
  = Ok (field (report_of data) "unit" (JStr "Thousand Pesos")).
Proof.
  intros H%flatten_accepts. unfold accepts_document in H.
  rewrite !andb_true_iff in H.
  destruct H as (((((Hdata & Hreport) & _) & _) & _) & _).
  rewrite get_field by done. cbn [bind]. fold (report_of data).
  by rewrite get_field.
Qed.

(** [main] converts the input that the command line names into the output
    that it names. *)
Lemma main_converts argv (fs : gmap string string) :
  run argv fs = converted (input_path argv) (output_path argv) fs.
Proof.
  unfold run, converted, main, convert. cbv zeta.
  rewrite ?argv_input, ?argv_output.
  destruct (fs !! resolve (input_path argv)) as [text|]; [|done].
  destruct (json_loads text) as [data|e]; [|done].
  destruct (flatten_json_to_rows data) as [[|row rows]|e] eqn:Hrows; [done| |done].
  destruct (open_fault (output_path argv)); [done|].
  destruct (write_fault (output_path argv) fieldnames (row :: rows)) as [[partial e]|];
    [done|].
  destruct (print_fault ("Successfully wrote to: " +:+ output_path argv)); [done|].
  rewrite (unit_after_flatten _ _ Hrows).
  by destruct (print_fault _).
Qed.


(** X8.  A run that ends with a status other than 0 leaves the files as
    it found them, unless the flattener had returned rows and the output
    was opened: then the output path alone differs, and holds what was
    written before the failure, or the whole table when the failure came
    after the writing. *)
Theorem failed_run_leaves_at_most_the_output argv (fs : gmap string string) :
  status_code (exit (run argv fs)) <> 0%Z ->
  files (run argv fs) = fs
  \/ exists text data rows,
       fs !! resolve (input_path argv) = Some text
       /\ json_loads text = inl data
       /\ flatten_json_to_rows data = Ok rows
       /\ rows <> []
       /\ open_fault (output_path argv) = None
       /\ ((exists partial e,
              write_fault (output_path argv) fieldnames rows = Some (partial, e)
              /\ files (run argv fs) = <[resolve (output_path argv) := partial]> fs)
           \/ (write_fault (output_path argv) fieldnames rows = None
               /\ files (run argv fs)
                  = <[resolve (output_path argv) := csv_text fieldnames rows]> fs)).
Proof.
  rewrite main_converts. unfold converted, convert. cbv zeta.
  destruct (fs !! resolve (input_path argv)) as [text|] eqn:Hfile; [|by left].
  destruct (json_loads text) as [data|e] eqn:Hload; [|by left].
  destruct (flatten_json_to_rows data) as [[|row rows]|e] eqn:Hrows;
    [by left| |by left].
  destruct (open_fault (output_path argv)) eqn:Hopen; [by left|].
  intros Hstatus. right. exists text, data, (row :: rows).
  do 5 (split; [done|]).
  destruct (write_fault _ _ _) as [[partial e]|]; [left; by eauto|].
  right. split; [done|].
  destruct (print_fault _); [done|]. by destruct (print_fault _).
Qed.

Lemma run_keeps_other_paths argv (fs : gmap string string) p :
  p <> resolve (output_path argv) ->
  files (run argv fs) !! p = fs !! p.
Proof.
  intros Hp. rewrite main_converts. unfold converted, convert. cbv zeta.
  destruct (fs !! resolve (input_path argv)) as [text|]; [|done].
  destruct (json_loads text) as [data|e]; [|done].
  destruct (flatten_json_to_rows data) as [[|row rows]|e]; try done.
  destruct (open_fault _); [done|].
  destruct (write_fault _ _ _) as [[partial e]|];
    [cbn [files]; by rewrite lookup_insert_ne|].
  destruct (print_fault _); [cbn [files]; by rewrite lookup_insert_ne|].
  destruct (print_fault _); cbn [files]; by rewrite lookup_insert_ne.
Qed.

(** X9.  A run changes no file but the output; in particular the input
    file is kept whenever it is not also the output. *)
Theorem only_the_output_path_changes argv (fs : gmap string string) p :
  p <> resolve (output_path argv) ->
  files (run argv fs) !! p = fs !! p.
Proof. apply run_keeps_other_paths. Qed.

(** X10.  A run ends with status 0 only after it has read an input that
    decodes to a document the flattener accepts; and then, unless the
    document has no node and no file was written, the output holds the
    whole table of the traversal's rows. *)
Theorem status_zero_means_converted argv (fs : gmap string string) :
  status_code (exit (run argv fs)) = 0%Z ->
  exists text data,
    fs !! resolve (input_path argv) = Some text
    /\ json_loads text = inl data
    /\ accepts_document data = true
    /\ ((node_count data = 0 /\ files (run argv fs) = fs)
        \/ (node_count data <> 0
            /\ files (run argv fs)
               = <[resolve (output_path argv)
                   := csv_text fieldnames (map spec_row (traversal data))]> fs)).
Proof.
  rewrite main_converts. unfold converted, convert. cbv zeta.
  destruct (fs !! resolve (input_path argv)) as [text|]; [|done].
  destruct (json_loads text) as [data|e] eqn:Hload; [|done].
  destruct (flatten_json_to_rows data) as [rows|e] eqn:Hrows; [|done].
  intros Hstatus. exists text, data. do 2 (split; [done|]).
  split; [by apply (flatten_accepts data rows)|].
  destruct (returned_rows_count _ _ Hrows) as [-> Hlen].
  rewrite <- Hlen.
  destruct (map spec_row (traversal data)) as [|row rows']; [by left|].
  right. split; [done|]. revert Hstatus.
  destruct (open_fault _); [done|].
  destruct (write_fault _ _ _) as [[partial e]|]; [done|].
  destruct (print_fault _); [done|]. by destruct (print_fault _).
Qed.


(** X12.  The command line selects the two paths of the conversion:
    without arguments the run converts 2026.json into 2026.csv, one
    argument is the input in place of 2026.json, two are the input and the
    output, and the script's name and any further argument are ignored. *)
Theorem arguments_select_the_paths (fs : gmap string string) :
  (forall script, run [script] fs = converted "2026.json" "2026.csv" fs)
  /\ (forall script input,
        run [script; input] fs = converted input "2026.csv" fs)
  /\ (forall script input output more,
        run (script :: input :: output :: more) fs = converted input output fs).
Proof. repeat split; intros; by rewrite main_converts. Qed.

(** X13.  When the input and the output are different files, running the
    script again on the files it left gives the same lines, the same
    status and the same files. *)
Theorem second_run_changes_nothing argv (fs : gmap string string) :
  resolve (input_path argv) <> resolve (output_path argv) ->
  run argv (files (run argv fs)) = run argv fs.
Proof.
  intros Hne.
  assert (files (run argv fs) !! resolve (input_path argv)
          = fs !! resolve (input_path argv))
    as Hinput by by apply run_keeps_other_paths.
  rewrite (main_converts argv (files (run argv fs))).
  unfold converted at 1, convert. cbv zeta. rewrite Hinput.
  rewrite (main_converts argv fs). unfold converted, convert. cbv zeta.
  destruct (fs !! resolve (input_path argv)) as [text|]; [|done].
  destruct (json_loads text) as [data|e]; [|done].
  destruct (flatten_json_to_rows data) as [[|row rows]|e]; try done.
  destruct (open_fault _); [done|].
  destruct (write_fault _ _ _) as [[partial e]|];
    [cbn [files]; by rewrite insert_insert_eq|].
  destruct (print_fault _); [cbn [files]; by rewrite insert_insert_eq|].
  destruct (print_fault _); cbn [files]; by rewrite insert_insert_eq.
Qed.

End Runs.


(** A key that cannot be encoded stops the writing after the rows before
    it: the run fails and leaves the header and the first row. *)
Example surrogate_key_leaves_a_partial_table :
  Sample.run Sample.loads_surrogate
    [Sample.script; "in.json"; "out.csv"] {[ "in.json" := Sample.surrogate_text ]}
  = mkOutcome
      ["Reading from: in.json"; "Converted 2 rows"]
      (<["out.csv" :=
           Sample.line fieldnames
           +:+ Sample.line ["Summary"; ""; "Total"; ""; ""; ""; "";
                            "0"; "0"; "0"; "0"; "0"]]>
         {[ "in.json" := Sample.surrogate_text ]})
      (Uncaught UnicodeEncodeError).
Proof. reflexivity. Qed.

(** A missing directory stops the run before anything is written. *)
Example missing_directory_leaves_nothing :
  Sample.run Sample.loads
    [Sample.script; "in.json"; "missing/out.csv"]
    {[ "in.json" := Sample.small_text ]}
  = mkOutcome
      ["Reading from: in.json"; "Converted 1 rows"]
      {[ "in.json" := Sample.small_text ]}
      (Uncaught OSError).
Proof. reflexivity. Qed.

Lemma failed_run_leaves_at_most_the_output_sample :
  let argv := [Sample.script; "in.json"; "out.csv"] in
  let fs : gmap string string := {[ "in.json" := Sample.surrogate_text ]} in
  let run := Sample.run Sample.loads_surrogate argv in
  files (run fs) = fs
  \/ exists text data rows,
       fs !! Sample.resolve (input_path argv) = Some text
       /\ Sample.loads_surrogate text = inl data
       /\ flatten_json_to_rows data = Ok rows
       /\ rows <> []
       /\ Sample.open_fault (output_path argv) = None
       /\ ((exists partial e,
              Sample.write_fault (output_path argv) fieldnames rows
              = Some (partial, e)
              /\ files (run fs)
                 = <[Sample.resolve (output_path argv) := partial]> fs)
           \/ (Sample.write_fault (output_path argv) fieldnames rows = None
               /\ files (run fs)
                  = <[Sample.resolve (output_path argv)
                      := Sample.csv fieldnames rows]> fs)).
Proof.
  apply (failed_run_leaves_at_most_the_output Sample.resolve
           Sample.loads_surrogate Sample.open_fault Sample.csv
           Sample.write_fault Sample.str Sample.print_fault
           [Sample.script; "in.json"; "out.csv"]
           {[ "in.json" := Sample.surrogate_text ]}).
  vm_compute. lia.
Defined.

Lemma only_the_output_path_changes_sample :
  files (Sample.run Sample.loads
           [Sample.script] {[ "2026.json" := Sample.small_text ]})
    !! "2026.json"
  = Some Sample.small_text.
Proof.
  refine (eq_trans
            (only_the_output_path_changes Sample.resolve Sample.loads
               Sample.open_fault Sample.csv Sample.write_fault Sample.str
               Sample.print_fault
               [Sample.script] {[ "2026.json" := Sample.small_text ]}
               "2026.json" _) _).
  - vm_compute. discriminate.
  - reflexivity.
Defined.

Lemma status_zero_means_converted_sample :
  let argv := [Sample.script] in
  let fs : gmap string string := {[ "2026.json" := Sample.small_text ]} in
  exists text data,
    fs !! Sample.resolve (input_path argv) = Some text
    /\ Sample.loads text = inl data
    /\ accepts_document data = true
    /\ ((node_count data = 0 /\ files (Sample.run Sample.loads argv fs) = fs)
        \/ (node_count data <> 0
            /\ files (Sample.run Sample.loads argv fs)
               = <[Sample.resolve (output_path argv)
                   := Sample.csv fieldnames (map spec_row (traversal data))]> fs)).
Proof.
  apply (status_zero_means_converted Sample.resolve Sample.loads
           Sample.open_fault Sample.csv Sample.write_fault Sample.str
           Sample.print_fault
           [Sample.script] {[ "2026.json" := Sample.small_text ]}).
  reflexivity.
Defined.


Lemma second_run_changes_nothing_sample :
  let run := Sample.run Sample.loads [Sample.script] in
  let fs : gmap string string := {[ "2026.json" := Sample.small_text ]} in
  run (files (run fs)) = run fs.
Proof.
  apply (second_run_changes_nothing Sample.resolve Sample.loads
           Sample.open_fault Sample.csv Sample.write_fault Sample.str
           Sample.print_fault
           [Sample.script] {[ "2026.json" := Sample.small_text ]}).
  vm_compute. discriminate.
Defined.


(** * Two runs on one parsed document *)

Module HeapFacts.

Import Heap.

(** ** Values and the objects that spell them *)

Lemma json_ind' (P : json -> Prop) :
  P JNull ->
  (forall b, P (JBool b)) ->
  (forall n, P (JInt n)) ->
  (forall x, P (JFloat x)) ->
  (forall s, P (JStr s)) ->
  (forall vs, Forall P vs -> P (JList vs)) ->
  (forall items, Forall (fun kv => P (snd kv)) items -> P (JDict items)) ->
  forall v, P v.
Proof.
  intros Hnull Hbool Hint Hfloat Hstr Hlist Hdict.
  fix IH 1. intros [| b | n | x | s | vs | items].
  - exact Hnull.
  - apply Hbool.
  - apply Hint.
  - apply Hfloat.
  - apply Hstr.
  - apply Hlist. induction vs as [|v vs IHvs]; constructor; [apply IH|apply IHvs].
  - apply Hdict.
    induction items as [|[k v] items IHitems]; constructor; [apply IH|apply IHitems].
Qed.

Lemma Forall2_Forall_impl {A B} (P P' : A -> B -> Prop) (xs : list A)
    (vs : list B) :
  Forall (fun v => forall x, P x v -> P' x v) vs ->
  Forall2 P xs vs -> Forall2 P' xs vs.
Proof.
  intros Hall H2. induction H2 as [|x v xs vs Hxv _ IH]; constructor.
  - apply Forall_inv in Hall. by apply Hall.
  - apply IH. by apply Forall_inv_tail in Hall.
Qed.

Lemma denotes_ext h h' :
  ext h h' -> forall v a, denotes h a v -> denotes h' a v.
Proof.
  intros Hext v. induction v as [| b | n | x | s | vs IH | items IH] using json_ind';
    intros a Hd; inversion Hd; subst; try (econstructor; by eauto).
  - eapply denotes_list; [by eauto|].
    eapply Forall2_Forall_impl; [|eassumption].
    eapply Forall_impl; [exact IH|]. intros v Hv x Hx. by apply Hv.
  - eapply denotes_dict; [by eauto|].
    eapply Forall2_Forall_impl; [|eassumption].
    eapply Forall_impl; [exact IH|].
    intros [k v] Hv [k' x] [Hk Hx]. split; [done|]. by apply Hv.
Qed.

Lemma denotes_row_ext h h' a row :
  ext h h' -> denotes_row h a row -> denotes_row h' a row.
Proof.
  intros Hext (level & c1 & c2 & c3 & c4 & c5 & c6 & n1 & n2 & n3 & n4 & n5
               & Ha & ? & ? & ? & ? & ? & ? & ? & ? & ? & ? & ? & ?).
  exists level, c1, c2, c3, c4, c5, c6, n1, n2, n3, n4, n5.
  split; [by apply Hext|]. repeat split; by eapply denotes_ext.
Qed.

Lemma denotes_rows_ext h h' a rows :
  ext h h' -> denotes_rows h a rows -> denotes_rows h' a rows.
Proof.
  intros Hext (xs & Ha & Hrows). exists xs. split; [by apply Hext|].
  eapply Forall2_impl; [exact Hrows|]. intros. by eapply denotes_row_ext.
Qed.

(** ** The store along a run *)

Section Steps.

Variable h0 : heap.

Local Abbreviation n0 := (length h0).
Local Abbreviation grown := (grown h0).
Local Abbreviation frame := (frame h0).
Local Abbreviation val := (val h0).
Local Abbreviation row_in := (row_in h0).
Local Abbreviation rows_in := (rows_in h0).
Local Abbreviation spells := (spells h0).
Local Abbreviation refines := (refines h0).

Lemma ext_frame h h' : ext h h' -> frame h h'.
Proof.
  intros Hext. split.
  - destruct (decide (length h <= length h')) as [|Hlt]; [done|].
    destruct (lookup_lt_is_Some_2 h (length h')) as [o Ho]; [lia|].
    apply Hext in Ho. apply lookup_lt_Some in Ho. lia.
  - intros a _ Ha. destruct (lookup_lt_is_Some_2 h a Ha) as [o Ho].
    rewrite Ho. by apply Hext.
Qed.

Lemma ext_snoc h o : ext h (h ++ [o]).
Proof. intros a o' Ha. by apply lookup_app_l_Some. Qed.

Lemma ext_trans h1 h2 h3 : ext h1 h2 -> ext h2 h3 -> ext h1 h3.
Proof. intros H12 H23 a o Ha. by apply H23, H12. Qed.

Lemma frame_refl h : frame h h.
Proof. by split. Qed.

Lemma frame_trans h1 h2 h3 : frame h1 h2 -> frame h2 h3 -> frame h1 h3.
Proof.
  intros [Hl12 H12] [Hl23 H23]. split; [lia|].
  intros a Ha Hlt. rewrite H23 by (done || lia). by apply H12.
Qed.

Lemma grown_frame h h' : grown h -> frame h h' -> grown h'.
Proof.
  intros [Hlen Hsame] [Hle Hkeep]. split; [lia|].
  intros a Ha. rewrite Hkeep by lia. by apply Hsame.
Qed.

Lemma grown_ext h : grown h -> ext h0 h.
Proof.
  intros [_ Hsame] a o Ha. rewrite Hsame; [done|].
  by apply lookup_lt_Some in Ha.
Qed.

Lemma val_frame h h' a v : frame h h' -> val h a v -> val h' a v.
Proof.
  intros [_ Hkeep] Hv.
  destruct Hv as [v Hd|s Ha Hs|n Ha Hn|Ha Hd|Ha Hl];
    [by apply val_data|..];
    [apply val_str|apply val_int|apply val_dict|apply val_list]; try done;
    (rewrite Hkeep; [done|done|by eapply lookup_lt_Some]).
Qed.

Lemma row_in_frame h h' a row : frame h h' -> row_in h a row -> row_in h' a row.
Proof.
  intros Hf [Hne (level & c1 & c2 & c3 & c4 & c5 & c6 & n1 & n2 & n3 & n4 & n5
                  & Ha & ? & ? & ? & ? & ? & ? & ? & ? & ? & ? & ? & ?)].
  split; [done|].
  exists level, c1, c2, c3, c4, c5, c6, n1, n2, n3, n4, n5. split.
  - destruct Hf as [_ Hkeep]. rewrite Hkeep; [done|done|by eapply lookup_lt_Some].
  - repeat split; by eapply val_frame.
Qed.

Lemma rows_in_ext h h' rows : ext h h' -> rows_in h rows -> rows_in h' rows.
Proof.
  intros Hext (xs & Hl & Hrows). exists xs. split; [by apply Hext|].
  eapply Forall2_impl; [exact Hrows|]. intros x row.
  by apply row_in_frame, ext_frame.
Qed.

Lemma val_denotes h a v : grown h -> val h a v -> denotes h a v.
Proof.
  intros Hg [v' Hd|s _ Hs|n _ Hn|_ Hd|_ Hl].
  - eapply denotes_ext; [by apply grown_ext|done].
  - by apply denotes_str.
  - by apply denotes_int.
  - by eapply denotes_dict.
  - by eapply denotes_list.
Qed.

Lemma row_in_denotes h a row : grown h -> row_in h a row -> denotes_row h a row.
Proof.
  intros Hg [_ (level & c1 & c2 & c3 & c4 & c5 & c6 & n1 & n2 & n3 & n4 & n5
                & Ha & ? & ? & ? & ? & ? & ? & ? & ? & ? & ? & ? & ?)].
  exists level, c1, c2, c3, c4, c5, c6, n1, n2, n3, n4, n5.
  split; [done|]. repeat split; by apply val_denotes.
Qed.

Lemma rows_in_denotes h rows : grown h -> rows_in h rows -> denotes_rows h n0 rows.
Proof.
  intros Hg (xs & Hl & Hrows). exists xs. split; [done|].
  eapply Forall2_impl; [exact Hrows|]. intros x row. by apply row_in_denotes.
Qed.

(** What a reference points at. *)
Lemma val_lookup h a v :
  grown h -> val h a v -> exists o, h !! a = Some o /\ spells h o v.
Proof.
  intros Hg [v' Hd|s _ Hs|n _ Hn|_ Hd|_ Hl].
  - pose proof (grown_ext _ Hg) as Hext.
    inversion Hd; subst; eexists; (split; [by apply Hext|]); simpl; try done.
    + eapply Forall2_impl; [eassumption|]. intros. by apply val_data.
    + eapply Forall2_impl; [eassumption|].
      intros [k x] [k' w] [Hk Hw]. split; [done|]. by apply val_data.
  - by exists (OStr s).
  - by exists (OInt n).
  - exists (ODict []). split; [done|]. constructor.
  - exists (OList []). split; [done|]. constructor.
Qed.

Lemma assoc_lookup_key h kvs items k d dv :
  Forall2 (fun ka kv => fst ka = fst kv /\ val h (snd ka) (snd kv)) kvs items ->
  val h d dv ->
  val h (default d (assoc k kvs)) (default dv (lookup_key k items)).
Proof.
  intros Hall Hd. induction Hall as [|[k1 x] [k2 w] kvs items [Hk Hw] _ IH];
    [done|].
  simpl in Hk. subst k2. simpl. by destruct (String.eqb k k1).
Qed.

(** ** Steps of the two flatteners, side by side *)

Lemma refines_eq {A B} h (m m' : M A) (p : result B) Q :
  m h = m' h -> refines h m' p Q -> refines h m p Q.
Proof. unfold Heap.refines. intros ->. done. Qed.

Lemma refines_raise {A B} h (m : M A) e (Q : heap -> A -> B -> Prop) :
  m h = (Raise e, h) -> refines h m (Raise e) Q.
Proof. intros Hm. exists h. split; [done|]. apply frame_refl. Qed.

Lemma refines_frame {A B} h h' (m : M A) (m' : M A) (p : result B) Q :
  frame h h' -> m h = m' h' -> refines h' m' p Q -> refines h m p Q.
Proof.
  intros Hf Hm. unfold Heap.refines. rewrite Hm. destruct p as [b|e].
  - intros (a & h2 & Hrun & Hf' & HQ). exists a, h2.
    split; [done|]. split; [by eapply frame_trans|done].
  - intros (h2 & Hrun & Hf'). exists h2.
    split; [done|]. by eapply frame_trans.
Qed.

Lemma refines_bind {A A' B B'} h (m : M A) (p : result B)
    (K : A -> M A') (KP : B -> result B') Q1 Q :
  refines h m p Q1 ->
  (forall a b h', frame h h' -> Q1 h' a b -> refines h' (K a) (KP b) Q) ->
  refines h (hbind m K) (bind p KP) Q.
Proof.
  unfold Heap.refines at 1. destruct p as [b|e]; simpl.
  - intros (a & h1 & Hrun & Hf & HQ) HK.
    eapply (refines_frame h h1 _ (K a)); [exact Hf| |by apply HK].
    unfold hbind. by rewrite Hrun.
  - intros (h1 & Hrun & Hf) _. exists h1. split; [|done].
    unfold hbind. by rewrite Hrun.
Qed.

(** A literal or an empty display. *)
Lemma step_new {A B} h o v (K : addr -> M A) (p : result B) Q :
  grown h -> literal o v ->
  (forall h' a, ext h h' -> grown h' -> val h' a v -> refines h' (K a) p Q) ->
  refines h (hbind (new o) K) p Q.
Proof.
  intros Hg Hlit HK.
  assert ((h ++ [o]) !! length h = Some o) as Hnew.
  { by rewrite lookup_app_r, Nat.sub_diag by lia. }
  pose proof (ext_snoc h o) as Hext.
  assert (grown (h ++ [o])) as Hg' by (eapply grown_frame; [done|by apply ext_frame]).
  assert (length h <> n0) as Hne by (destruct Hg; lia).
  eapply (refines_frame h (h ++ [o]) _ (K (length h)));
    [by apply ext_frame|done|apply HK; try done].
  destruct Hlit; [by apply val_str|by apply val_int|by apply val_dict|by apply val_list].
Qed.

(** [x.get(k, d)] against [get v k dv]. *)
Lemma step_get {A B} h x v d dv k (K : addr -> M A) (KP : json -> result B) Q :
  grown h -> val h x v -> val h d dv ->
  (is_dict v = true ->
   forall y, val h y (field v k dv) -> refines h (K y) (KP (field v k dv)) Q) ->
  refines h (hbind (hget x k d) K) (bind (get v k dv) KP) Q.
Proof.
  intros Hg Hx Hd HK. destruct (val_lookup _ _ _ Hg Hx) as (o & Ho & Hsp).
  assert (forall m : obj -> M addr,
            hbind (hbind (deref x) m) K h = hbind (m o) K h) as Hrun.
  { intros m. unfold hbind, deref. by rewrite Ho. }
  unfold hget. destruct v, o; simpl in Hsp; try done;
    try (apply refines_raise; by rewrite Hrun).
  eapply refines_eq; [by rewrite Hrun|].
  apply (HK eq_refl). by apply assoc_lookup_key.
Qed.

(** [x.items()] against [items v]. *)
Lemma step_items {A B} h x v (K : list (string * addr) -> M A)
    (KP : list (string * json) -> result B) Q :
  grown h -> val h x v ->
  (is_dict v = true ->
   forall kvs,
     Forall2 (fun ka kv => fst ka = fst kv /\ val h (snd ka) (snd kv))
       kvs (mapping v) ->
     refines h (K kvs) (KP (mapping v)) Q) ->
  refines h (hbind (hitems x) K) (bind (items v) KP) Q.
Proof.
  intros Hg Hx HK. destruct (val_lookup _ _ _ Hg Hx) as (o & Ho & Hsp).
  assert (forall m : obj -> M (list (string * addr)),
            hbind (hbind (deref x) m) K h = hbind (m o) K h) as Hrun.
  { intros m. unfold hbind, deref. by rewrite Ho. }
  unfold hitems. destruct v, o; simpl in Hsp; try done;
    try (apply refines_raise; by rewrite Hrun).
  eapply refines_eq; [by rewrite Hrun|]. by apply (HK eq_refl).
Qed.

Lemma new_strings_spec ss : forall h,
  grown h ->
  exists xs h',
    new_strings ss h = (Ok xs, h') /\ ext h h'
    /\ Forall2 (val h') xs (map JStr ss).
Proof.
  induction ss as [|s ss IH]; intros h Hg.
  - exists [], h. split; [done|]. split; [by intros ??|constructor].
  - pose proof (ext_snoc h (OStr s)) as Hext.
    assert (grown (h ++ [OStr s])) as Hg'
      by (eapply grown_frame; [done|by apply ext_frame]).
    destruct (IH _ Hg') as (xs & h' & Hrun & Hext' & Hall).
    exists (length h :: xs), h'. split; [|split].
    + cbn [new_strings]. unfold hbind at 1. unfold new at 1.
      unfold hbind at 1. by rewrite Hrun.
    + by eapply ext_trans.
    + cbn [map]. constructor; [|done]. apply val_str.
      * destruct Hg. lia.
      * apply Hext'. by rewrite lookup_app_r, Nat.sub_diag by lia.
Qed.

(** [for ... in x] against [iter v]. *)
Lemma step_iter {A B} h x v (K : list addr -> M A)
    (KP : list json -> result B) Q :
  grown h -> val h x v ->
  (forall h' xs vs,
     iter v = Ok vs -> ext h h' -> grown h' -> Forall2 (val h') xs vs ->
     refines h' (K xs) (KP vs) Q) ->
  refines h (hbind (hiter x) K) (bind (iter v) KP) Q.
Proof.
  intros Hg Hx HK. destruct (val_lookup _ _ _ Hg Hx) as (o & Ho & Hsp).
  assert (forall m : obj -> M (list addr),
            hbind (hbind (deref x) m) K h = hbind (m o) K h) as Hrun.
  { intros m. unfold hbind, deref. by rewrite Ho. }
  unfold hiter.
  destruct v as [| b | n | f | s | vs | items],
           o as [| b' | n' | f' | s' | ys | kvs];
    simpl in Hsp; try done;
    try (apply refines_raise; by rewrite Hrun).
  - (* a string *)
    subst s'.
    destruct (new_strings_spec (chars s) h Hg) as (xs & h' & Hnew & Hext & Hall).
    eapply (refines_frame h h' _ (K xs)); [by apply ext_frame, Hext| |].
    + rewrite Hrun. unfold hbind. by rewrite Hnew.
    + apply HK; try done. eapply grown_frame; [done|by apply ext_frame].
  - (* a list *)
    eapply refines_eq; [by rewrite Hrun|]. apply HK; try done. by intros ??.
  - (* a dict *)
    destruct (new_strings_spec (map fst kvs) h Hg) as (xs & h' & Hnew & Hext & Hall).
    eapply (refines_frame h h' _ (K xs)); [by apply ext_frame, Hext| |].
    + rewrite Hrun. unfold hbind. by rewrite Hnew.
    + apply HK; try done; [eapply grown_frame; [done|by apply ext_frame]|].
      replace (map (fun kv : string * json => JStr (fst kv)) items)
        with (map JStr (map fst kvs)); [done|].
      rewrite map_map. clear -Hsp.
      induction Hsp as [|[k x] [k' w] ? ? [Hk _] _ IH]; [done|].
      simpl in *. by rewrite Hk, IH.
Qed.

(** A row display and its [append]. *)
Lemma emit_row h rows level c1 c2 c3 c4 c5 c6 n1 n2 n3 n4 n5
    L v1 v2 v3 v4 v5 v6 w1 w2 w3 w4 w5 :
  grown h -> rows_in h rows ->
  val h level (JStr L) ->
  val h c1 v1 -> val h c2 v2 -> val h c3 v3 ->
  val h c4 v4 -> val h c5 v5 -> val h c6 v6 ->
  val h n1 w1 -> val h n2 w2 -> val h n3 w3 -> val h n4 w4 -> val h n5 w5 ->
  exists h',
    hbind (new (ODict [("Level", level);
                       ("Department_Code", c1); ("Department_Name", c2);
                       ("Agency_Code", c3); ("Agency_Name", c4);
                       ("Sub_Agency_Code", c5); ("Sub_Agency_Name", c6);
                       ("House", n1); ("Increase", n2); ("Decrease", n3);
                       ("Net", n4); ("Senate", n5)]))
      (fun row => append n0 row) h
    = (Ok tt, h')
    /\ frame h h' /\ grown h'
    /\ rows_in h' (rows ++ [mkRow L v1 v2 v3 v4 v5 v6 w1 w2 w3 w4 w5]).
Proof.
  intros Hg (xs & Hl & Hrows) Hlevel H1 H2 H3 H4 H5 H6 G1 G2 G3 G4 G5.
  set (o := ODict _).
  assert (n0 < length h) as Hlt by by destruct Hg.
  set (h1 := h ++ [o]).
  assert (h1 !! n0 = Some (OList xs)) as Hl1 by by apply lookup_app_l_Some.
  exists (<[n0 := OList (xs ++ [length h])]> h1).
  assert (frame h (<[n0 := OList (xs ++ [length h])]> h1)) as Hf.
  { split.
    - rewrite length_insert. unfold h1. rewrite length_app. lia.
    - intros a Ha Hlt'. rewrite list_lookup_insert_ne by done.
      unfold h1. by rewrite lookup_app_l. }
  split; [|split; [done|split; [by eapply grown_frame|]]].
  - unfold hbind, new, append. fold o. fold h1. by rewrite Hl1.
  - exists (xs ++ [length h]). split.
    + apply list_lookup_insert_eq. unfold h1. rewrite length_app. lia.
    + apply Forall2_app.
      * eapply Forall2_impl; [exact Hrows|]. intros x row.
        by apply row_in_frame.
      * constructor; [|constructor]. split; [lia|].
        exists level, c1, c2, c3, c4, c5, c6, n1, n2, n3, n4, n5. split.
        -- rewrite list_lookup_insert_ne by lia. unfold h1.
           by rewrite lookup_app_r, Nat.sub_diag by lia.
        -- cbn [Level Department_Code Department_Name Agency_Code Agency_Name
                Sub_Agency_Code Sub_Agency_Name House Increase Decrease Net
                Senate].
           repeat split; by eapply val_frame.
Qed.

Lemma step_emit {A B} h rows level c1 c2 c3 c4 c5 c6 n1 n2 n3 n4 n5
    L v1 v2 v3 v4 v5 v6 w1 w2 w3 w4 w5
    (K : unit -> M A) (p : result B) Q :
  grown h -> rows_in h rows ->
  val h level (JStr L) ->
  val h c1 v1 -> val h c2 v2 -> val h c3 v3 ->
  val h c4 v4 -> val h c5 v5 -> val h c6 v6 ->
  val h n1 w1 -> val h n2 w2 -> val h n3 w3 -> val h n4 w4 -> val h n5 w5 ->
  (forall h',
     frame h h' -> grown h' ->
     rows_in h' (rows ++ [mkRow L v1 v2 v3 v4 v5 v6 w1 w2 w3 w4 w5]) ->
     refines h' (K tt) p Q) ->
  refines h
    (hbind (new (ODict [("Level", level);
                        ("Department_Code", c1); ("Department_Name", c2);
                        ("Agency_Code", c3); ("Agency_Name", c4);
                        ("Sub_Agency_Code", c5); ("Sub_Agency_Name", c6);
                        ("House", n1); ("Increase", n2); ("Decrease", n3);
                        ("Net", n4); ("Senate", n5)]))
       (fun row => hbind (append n0 row) K))
    p Q.
Proof.
  intros Hg Hrows Hlevel H1 H2 H3 H4 H5 H6 G1 G2 G3 G4 G5 HK.
  destruct (emit_row h rows level c1 c2 c3 c4 c5 c6 n1 n2 n3 n4 n5
              L v1 v2 v3 v4 v5 v6 w1 w2 w3 w4 w5)
    as (h' & Hrun & Hf & Hg' & Hrows'); try done.
  eapply (refines_frame h h' _ (K tt)); [done| |by apply HK].
  revert Hrun. unfold hbind, new.
  by destruct (append n0 (length h) (h ++ _)) as [[[]|e] h2]; intros [= <-].
Qed.

Lemma step_emit_last h rows level c1 c2 c3 c4 c5 c6 n1 n2 n3 n4 n5
    L v1 v2 v3 v4 v5 v6 w1 w2 w3 w4 w5 :
  grown h -> rows_in h rows ->
  val h level (JStr L) ->
  val h c1 v1 -> val h c2 v2 -> val h c3 v3 ->
  val h c4 v4 -> val h c5 v5 -> val h c6 v6 ->
  val h n1 w1 -> val h n2 w2 -> val h n3 w3 -> val h n4 w4 -> val h n5 w5 ->
  refines h
    (hbind (new (ODict [("Level", level);
                        ("Department_Code", c1); ("Department_Name", c2);
                        ("Agency_Code", c3); ("Agency_Name", c4);
                        ("Sub_Agency_Code", c5); ("Sub_Agency_Name", c6);
                        ("House", n1); ("Increase", n2); ("Decrease", n3);
                        ("Net", n4); ("Senate", n5)]))
       (fun row => append n0 row))
    (Ok (rows ++ [mkRow L v1 v2 v3 v4 v5 v6 w1 w2 w3 w4 w5]))
    (fun h' _ rows' => grown h' /\ rows_in h' rows').
Proof.
  intros Hg Hrows Hlevel H1 H2 H3 H4 H5 H6 G1 G2 G3 G4 G5.
  destruct (emit_row h rows level c1 c2 c3 c4 c5 c6 n1 n2 n3 n4 n5
              L v1 v2 v3 v4 v5 v6 w1 w2 w3 w4 w5)
    as (h' & Hrun & Hf & Hg' & Hrows'); try done.
  by exists tt, h'.
Qed.

(** A loop that gathers rows. *)
Lemma refines_for {X V} (R : heap -> X -> V -> Prop)
    (bodyh : X -> M unit) (bodyp : V -> list Row -> result (list Row)) :
  (forall h h' x v, frame h h' -> R h x v -> R h' x v) ->
  forall xs vs h rows,
    grown h -> rows_in h rows -> Forall2 (R h) xs vs ->
    (forall x v h1 rows1,
       frame h h1 -> grown h1 -> rows_in h1 rows1 -> R h1 x v ->
       refines h1 (bodyh x) (bodyp v rows1)
         (fun h2 _ rows2 => grown h2 /\ rows_in h2 rows2)) ->
    refines h (hfor xs bodyh) (for_each vs bodyp rows)
      (fun h' _ rows' => grown h' /\ rows_in h' rows').
Proof.
  intros HR xs. induction xs as [|x xs IH]; intros vs h rows Hg Hrows Hall Hbody.
  - apply Forall2_nil_inv_l in Hall as ->. exists tt, h.
    split; [done|]. split; [apply frame_refl|done].
  - apply Forall2_cons_inv_l in Hall as (v & vs' & Hxv & Hall & ->).
    cbn [hfor for_each].
    eapply refines_bind.
    + apply Hbody; [apply frame_refl|done|done|done].
    + intros [] rows1 h1 Hf [Hg1 Hrows1]. apply IH; try done.
      * eapply Forall2_impl; [exact Hall|]. intros. by eapply HR.
      * intros x' v' h2 rows2 Hf2. apply Hbody. by eapply frame_trans.
Qed.

(** ** The two flatteners agree *)

Ltac carry h Hf :=
  repeat match goal with
         | H : Heap.val _ h _ _ |- _ => apply (val_frame _ _ _ _ Hf) in H
         end.

Ltac literal_step :=
  lazymatch goal with
  | Hg : Heap.grown _ ?h |- Heap.refines _ ?h (hbind (new _) _) _ _ =>
      eapply step_new; [exact Hg|constructor|];
      let h' := fresh "h" in
      let Hext := fresh "Hext" in
      let Hg' := fresh "Hg" in
      let Hf := fresh "Hf" in
      intros h' ? Hext Hg' ?;
      pose proof (ext_frame _ _ Hext) as Hf;
      carry h Hf;
      repeat match goal with
             | H : Heap.rows_in _ h _ |- _ => apply (rows_in_ext _ _ _ Hext) in H
             end;
      clear Hf Hext Hg; try clear h
  end.

Ltac get_step :=
  lazymatch goal with
  | Hg : Heap.grown _ ?h |- Heap.refines _ ?h (hbind (hget _ _ _) _) _ _ =>
      eapply step_get; [exact Hg|eassumption|eassumption|];
      intros _ ? ?; cbv beta
  end.

Ltac read_step := first [literal_step | get_step].

Ltac items_step :=
  lazymatch goal with
  | Hg : Heap.grown _ ?h |- Heap.refines _ ?h (hbind (hitems _) _) _ _ =>
      eapply step_items; [exact Hg|eassumption|];
      intros _ ? ?; cbv beta
  end.

Ltac iter_step :=
  lazymatch goal with
  | Hg : Heap.grown _ ?h |- Heap.refines _ ?h (hbind (hiter _) _) _ _ =>
      eapply step_iter; [exact Hg|eassumption|];
      let h' := fresh "h" in
      let Hext := fresh "Hext" in
      let Hg' := fresh "Hg" in
      let Hf := fresh "Hf" in
      intros h' ? ? _ Hext Hg' ?;
      pose proof (ext_frame _ _ Hext) as Hf;
      carry h Hf;
      repeat match goal with
             | H : Heap.rows_in _ h _ |- _ => apply (rows_in_ext _ _ _ Hext) in H
             end;
      clear Hf Hext Hg; try clear h; cbv beta
  end.

(** Enter the body of a loop: the store has moved on from [h] to a new
    [h'], by a frame. *)
Ltac enter_body :=
  lazymatch goal with
  | Hg : Heap.grown _ ?h |- _ =>
      let h' := fresh "h" in
      let Hf := fresh "Hf" in
      let Hg' := fresh "Hg" in
      intros h' ? Hf Hg' ? ?;
      carry h Hf;
      repeat match goal with
             | H : Heap.grown _ h |- _ => clear H
             | H : Heap.rows_in _ h _ |- _ => clear H
             end;
      clear Hf; cbv beta iota zeta
  end.

(** Leave a loop: the store has moved on by a frame. *)
Ltac leave_loop :=
  lazymatch goal with
  | Hg : Heap.grown _ ?h |- _ =>
      let h' := fresh "h" in
      let Hf := fresh "Hf" in
      let Hg' := fresh "Hg" in
      intros [] ? h' Hf [Hg' ?];
      carry h Hf;
      repeat match goal with
             | H : Heap.grown _ h |- _ => clear H
             | H : Heap.rows_in _ h _ |- _ => clear H
             end;
      clear Hf; cbv beta
  end.

Ltac loop_over R :=
  eapply (refines_for R); [|eassumption|eassumption|eassumption|].

Ltac emit_last := eapply step_emit_last; eassumption.

Ltac emit_step :=
  lazymatch goal with
  | Hg : Heap.grown _ ?h |- Heap.refines _ ?h (hbind (new (ODict _)) _) _ _ =>
      eapply step_emit; [exact Hg|eassumption..|];
      let h' := fresh "h" in
      let Hf := fresh "Hf" in
      let Hg' := fresh "Hg" in
      intros h' Hf Hg' ?;
      carry h Hf;
      repeat match goal with
             | H : Heap.rows_in _ h _ |- _ => clear H
             end;
      clear Hf Hg; try clear h
  end.

Lemma flatten_refines_pure data v :
  denotes h0 data v ->
  refines h0 (Heap.flatten_json_to_rows data)
    (Flattener.flatten_json_to_rows v)
    (fun h' a rows => a = n0 /\ grown h' /\ rows_in h' rows).
Proof.
  intros Hdata. apply (val_data h0 h0) in Hdata.
  set (h1 := h0 ++ [OList []]).
  assert (ext h0 h1) as Hext by apply ext_snoc.
  assert (grown h1) as Hg.
  { split; [unfold h1; rewrite length_app; simpl; lia|].
    intros a Ha. unfold h1. by rewrite lookup_app_l. }
  assert (rows_in h1 []) as Hrows.
  { exists []. split; [|constructor].
    unfold h1. by rewrite lookup_app_r, Nat.sub_diag by lia. }
  pose proof (ext_frame _ _ Hext) as Hf. carry h0 Hf.
  unfold Heap.flatten_json_to_rows, Flattener.flatten_json_to_rows. cbv zeta.
  eapply (refines_frame h0 h1); [exact Hf|reflexivity|].
  clearbody h1. clear Hext Hf.
  do 4 read_step. items_step.
  (* the summary *)
  eapply refines_bind.
  { eapply (refines_for
              (fun h ka kv => fst ka = fst kv /\ Heap.val h0 h (snd ka) (snd kv)));
      [|exact Hg|eassumption|eassumption|].
    - intros h h' x w Hf [Hk Hw]. split; [done|]. by eapply val_frame.
    - intros [key values] [key' valuesv]. enter_body.
      match goal with H : _ /\ _ |- _ => destruct H as [Hk Hv] end.
      simpl in Hk, Hv. subst key'.
      repeat read_step. emit_last. }
  leave_loop.
  (* the departments *)
  do 2 read_step. iter_step.
  eapply refines_bind.
  { loop_over (Heap.val h0); [intros; by eapply val_frame|].
    intros dept deptv. enter_body.
    repeat read_step. emit_step. do 2 read_step. iter_step.
    loop_over (Heap.val h0); [intros; by eapply val_frame|].
    intros agency agencyv. enter_body.
    repeat read_step. emit_step. do 2 read_step. iter_step.
    loop_over (Heap.val h0); [intros; by eapply val_frame|].
    intros sub_agency sub_agencyv. enter_body.
    repeat read_step. emit_last. }
  leave_loop.
  (* the special purpose funds *)
  do 2 read_step. iter_step.
  eapply refines_bind.
  { loop_over (Heap.val h0); [intros; by eapply val_frame|].
    intros fund fundv. enter_body.
    repeat read_step. emit_step. do 2 read_step. iter_step.
    loop_over (Heap.val h0); [intros; by eapply val_frame|].
    intros agency agencyv. enter_body.
    repeat read_step. emit_last. }
  leave_loop.
  eexists _, _. split; [reflexivity|]. split; [apply frame_refl|].
  split; [reflexivity|]. split; assumption.
Qed.

End Steps.

(** One run: the flattener over the store ends as the flattener over the
    value does, keeps every object it found, and returns a new list whose
    rows spell the rows of the value. *)
Lemma run_refines_value h data v :
  denotes h data v ->
  exists r h',
    Heap.flatten_json_to_rows data h = (r, h')
    /\ ext h h'
    /\ match Flattener.flatten_json_to_rows v with
       | Ok rows =>
           r = Ok (length h) /\ length h < length h'
           /\ denotes_rows h' (length h) rows
       | Raise e => r = Raise e
       end.
Proof.
  intros Hd. pose proof (flatten_refines_pure h data v Hd) as Href.
  unfold refines in Href.
  destruct (Flattener.flatten_json_to_rows v) as [rows|e].
  - destruct Href as (a & h' & Hrun & _ & -> & Hg & Hrows).
    exists (Ok (length h)), h'. split; [done|]. split; [by eapply grown_ext|].
    split; [done|]. split; [by destruct Hg|]. by eapply rows_in_denotes.
  - destruct Href as (h' & Hrun & [_ Hkeep]).
    exists (Raise e), h'. split; [done|]. split; [|done].
    intros a o Ha. rewrite Hkeep; [done| |];
      apply lookup_lt_Some in Ha; lia.
Qed.

(** Two runs on one document, the second in the store that the first
    left. *)
Lemma two_runs h data v :
  denotes h data v ->
  exists r1 h1 r2 h2,
    Heap.flatten_json_to_rows data h = (r1, h1)
    /\ Heap.flatten_json_to_rows data h1 = (r2, h2)
    /\ ext h h2
    /\ denotes h2 data v
    /\ match Flattener.flatten_json_to_rows v with
       | Ok rows =>
           exists a1 a2,
             r1 = Ok a1 /\ r2 = Ok a2 /\ a1 <> a2
             /\ denotes_rows h2 a1 rows /\ denotes_rows h2 a2 rows
       | Raise e => r1 = Raise e /\ r2 = Raise e
       end.
Proof.
  intros Hd.
  destruct (run_refines_value h data v Hd) as (r1 & h1 & Hrun1 & Hext1 & H1).
  pose proof (denotes_ext _ _ Hext1 _ _ Hd) as Hd1.
  destruct (run_refines_value h1 data v Hd1) as (r2 & h2 & Hrun2 & Hext2 & H2).
  exists r1, h1, r2, h2. split; [done|]. split; [done|].
  split; [intros a o Ha; by apply Hext2, Hext1|].
  split; [by eapply denotes_ext|].
  destruct (Flattener.flatten_json_to_rows v) as [rows|e]; [|done].
  destruct H1 as (-> & Hlt & Hrows1), H2 as (-> & _ & Hrows2).
  exists (length h), (length h1). repeat split; try done; [lia|].
  by eapply denotes_rows_ext.
Qed.

End HeapFacts.

(** ** Runs on the same input *)

Section Reruns.

Variable resolve : string -> string.
Variable json_loads : string -> json + string.
Variable open_fault : string -> option exn.
Variable csv_text : list string -> list Row -> string.
Variable write_fault : string -> list string -> list Row -> option (string * exn).
Variable py_str : json -> string.
Variable print_fault : string -> option exn.

Let run :=
  main resolve json_loads open_fault csv_text write_fault py_str print_fault.

(** C7.  Two calls of the flattener on one parsed document, the second in
    the store that the first has left, return two lists of rows that spell
    the same rows (or raise the same exception), and the document is as it
    was: the flattener changes no object but its own list.  Those rows are
    the ones the flattener computes from the value of the document alone,
    so that two runs of the program that read the same text print the same
    lines, end with the same status and write the same text, or both
    nothing, to the output. *)
Theorem reruns_agree :
  (forall h data v,
     Heap.denotes h data v ->
     exists r1 h1 r2 h2,
       Heap.flatten_json_to_rows data h = (r1, h1)
       /\ Heap.flatten_json_to_rows data h1 = (r2, h2)
       /\ (forall a o, h !! a = Some o -> h2 !! a = Some o)
       /\ Heap.denotes h2 data v
       /\ match flatten_json_to_rows v with
          | Ok rows =>
              exists a1 a2,
                r1 = Ok a1 /\ r2 = Ok a2 /\ a1 <> a2
                /\ Heap.denotes_rows h2 a1 rows
                /\ Heap.denotes_rows h2 a2 rows
          | Raise e => r1 = Raise e /\ r2 = Raise e
          end)
  /\ forall argv (fs1 fs2 : gmap string string),
       fs1 !! resolve (input_path argv) = fs2 !! resolve (input_path argv) ->
       stdout (run argv fs1) = stdout (run argv fs2)
       /\ exit (run argv fs1) = exit (run argv fs2)
       /\ ((files (run argv fs1) = fs1 /\ files (run argv fs2) = fs2)
           \/ exists text,
                files (run argv fs1) = <[resolve (output_path argv) := text]> fs1
                /\ files (run argv fs2)
                   = <[resolve (output_path argv) := text]> fs2).
Proof.
  split; [exact HeapFacts.two_runs|].
  intros argv fs1 fs2 Hsame. unfold run. rewrite !main_converts.
  unfold convert. cbv zeta. rewrite <- Hsame.
  destruct (fs1 !! resolve (input_path argv)) as [text|]; [|by auto].
  destruct (json_loads text) as [data|e]; [|by auto].
  destruct (flatten_json_to_rows data) as [[|row rows]|e]; [by auto| |by auto].
  destruct (open_fault _); [by auto|].
  destruct (write_fault _ _ _) as [[partial e]|];
    [cbn [stdout exit files]; by eauto 6|].
  destruct (print_fault _); [cbn [stdout exit files]; by eauto 6|].
  destruct (print_fault _); cbn [stdout exit files]; by eauto 6.
Qed.

End Reruns.

Lemma reruns_agree_sample :
  (let h := snd (Heap.store Sample.small []) in
   let data := fst (Heap.store Sample.small []) in
   exists r1 h1 r2 h2,
     Heap.flatten_json_to_rows data h = (r1, h1)
     /\ Heap.flatten_json_to_rows data h1 = (r2, h2)
     /\ (forall a o, h !! a = Some o -> h2 !! a = Some o)
     /\ Heap.denotes h2 data Sample.small
     /\ match flatten_json_to_rows Sample.small with
        | Ok rows =>
            exists a1 a2,
              r1 = Ok a1 /\ r2 = Ok a2 /\ a1 <> a2
              /\ Heap.denotes_rows h2 a1 rows
              /\ Heap.denotes_rows h2 a2 rows
        | Raise e => r1 = Raise e /\ r2 = Raise e
        end)
  /\ (let argv := [Sample.script; "in.json"; "out.csv"] in
      let fs1 : gmap string string := {[ "in.json" := Sample.small_text ]} in
      let fs2 : gmap string string :=
        {[ "in.json" := Sample.small_text; "out.csv" := "stale" ]} in
      let run := Sample.run Sample.loads argv in
      stdout (run fs1) = stdout (run fs2)
      /\ exit (run fs1) = exit (run fs2)
      /\ ((files (run fs1) = fs1 /\ files (run fs2) = fs2)
          \/ exists text,
               files (run fs1) = <[Sample.resolve (output_path argv) := text]> fs1
               /\ files (run fs2)
                  = <[Sample.resolve (output_path argv) := text]> fs2)).
Proof.
  pose proof (reruns_agree Sample.resolve Sample.loads Sample.open_fault
                Sample.csv Sample.write_fault Sample.str Sample.print_fault)
    as [Hcalls Hruns].
  split.
  - apply (Hcalls (snd (Heap.store Sample.small []))
             (fst (Heap.store Sample.small [])) Sample.small).
    vm_compute.
    repeat first [reflexivity | split | econstructor].
  - apply (Hruns [Sample.script; "in.json"; "out.csv"]
             {[ "in.json" := Sample.small_text ]}
             {[ "in.json" := Sample.small_text; "out.csv" := "stale" ]}).
    reflexivity.
Defined.
